(** * Contratus AI API: the resilient Pinecone query gateway

    A shallow embedding of [api_pinecone.py]: the process-wide connection
    state ([pc], [index], [connection_attempts]), the bounded reconnection
    routine [conectar_pinecone] and the three query endpoints
    [listar_contratos], [buscar_contratos] and [listar_arquivos] together
    with their reconnect-and-replay wrapper.

    The collaborators (the Pinecone client, the index handle, the OpenAI
    embedding endpoint and [time.sleep]) are external.  They are modelled by
    a deterministic oracle [Mundo] that answers every call from the history
    of all earlier calls, and every call is appended to that history, so
    that statements about which calls were made, how often and in which
    order are statements about the final history.  Output written with
    [print] is not modelled. *)

From stdpp Require Import gmap strings list.
From Stdlib Require Import ZArith Lia SpecFloat.
From Equations.Prop Require Import Equations Logic.

Local Open Scope string_scope.
Local Open Scope list_scope.
Local Open Scope Z_scope.

(** ** Data *)

(** Python floats: IEEE 754 values, only ever copied and compared here. *)
Definition Float : Type := spec_float.

(** The literal [0.0]. *)
Definition zero : Float := S754_zero false.

(** The text [str(e)] of an exception raised by a collaborator. *)
Definition Erro : Type := string.

(** The outcome of a call that may raise. *)
Inductive Resultado (A : Type) : Type :=
| Ok (a : A)
| Raise (e : Erro).
Arguments Ok {A} a.
Arguments Raise {A} e.

(** Opaque objects handed out by the Pinecone SDK. *)
Definition Client : Type := nat.
Definition Handle : Type := nat.

(** One element of [resultados_query.matches]. *)
Record Match : Type := {
  m_id : string;
  m_score : Float;
  m_metadata : gmap string string
}.

(** [class ContratoResponse(ContratoBase)]. *)
Record ContratoResponse : Type := {
  arquivo : string;
  texto : string;
  score : Float
}.

(** [class SearchResponse(BaseModel)]. *)
Record SearchResponse : Type := {
  resultados : list ContratoResponse;
  total : Z
}.

(** What an endpoint hands back to the routing layer: its return value or
    the [HTTPException] it raised. *)
Inductive Resposta (A : Type) : Type :=
| Retorno (a : A)
| HTTPException (status_code : Z) (detail : string).
Arguments Retorno {A} a.
Arguments HTTPException {A} status_code detail.

(** A value stored in the dict [read_root] returns. *)
Inductive Valor : Type :=
| VStr (s : string)
| VInt (n : Z).

(** ** The outside world *)

(** A call made to a collaborator, with the answer it got. *)
Inductive Evento : Type :=
| EvPinecone (r : Resultado Client)
| EvIndex (c : Client) (r : Resultado Handle)
| EvStats (h : Handle) (r : Resultado (gmap string Z))
| EvQuery (h : Handle) (vector : list Float) (top_k : Z)
          (r : Resultado (list Match))
| EvEmbedding (texto : string) (r : Resultado (list Float))
| EvSleep (segundos : Z).

(** The collaborators.  Each answer may depend on everything that happened
    before (the history, most recent call first) and on the arguments. *)
Record Mundo : Type := {
  pinecone_new : list Evento -> Resultado Client;
  pinecone_index : list Evento -> Client -> Resultado Handle;
  describe_index_stats : list Evento -> Handle -> Resultado (gmap string Z);
  query : list Evento -> Handle -> list Float -> Z -> Resultado (list Match);
  embeddings_create : list Evento -> string -> Resultado (list Float)
}.

(** ** Process-wide state *)

(** The module globals [pc], [index] and [connection_attempts], and the
    history of calls made so far. *)
Record Estado : Type := {
  pc : option Client;
  index : option Handle;
  connection_attempts : nat;
  historico : list Evento
}.

Definition MAX_RECONNECT_ATTEMPTS : nat := 3.

(** The state of a process in which nothing has run yet. *)
Definition estado_inicial : Estado :=
  {| pc := None; index := None; connection_attempts := 0; historico := [] |}.

Definition registrar (ev : Evento) (s : Estado) : Estado :=
  {| pc := pc s; index := index s;
     connection_attempts := connection_attempts s;
     historico := ev :: historico s |}.

Definition set_pc (c : Client) (s : Estado) : Estado :=
  {| pc := Some c; index := index s;
     connection_attempts := connection_attempts s;
     historico := historico s |}.

Definition set_index (h : Handle) (s : Estado) : Estado :=
  {| pc := pc s; index := Some h;
     connection_attempts := connection_attempts s;
     historico := historico s |}.

Definition set_connection_attempts (n : nat) (s : Estado) : Estado :=
  {| pc := pc s; index := index s;
     connection_attempts := n;
     historico := historico s |}.

(** ** A state-and-exception monad for the bodies of the [try] blocks *)

Definition M (A : Type) : Type := Estado -> Resultado A * Estado.

Definition ret {A : Type} (a : A) : M A := fun s => (Ok a, s).

Definition bind {A B : Type} (m : M A) (k : A -> M B) : M B :=
  fun s =>
    match m s with
    | (Ok a, s1) => k a s1
    | (Raise e, s1) => (Raise e, s1)
    end.

Notation "x <~ m ;; k" := (bind m (fun x => k))
  (at level 100, m at next level, k at level 200, right associativity).
Notation "m ;;; k" := (bind m (fun _ => k))
  (at level 100, k at level 200, right associativity).

Definition modificar (f : Estado -> Estado) : M unit :=
  fun s => (Ok tt, f s).

(** ** Pure helpers of the endpoints *)

(** Python's [l[start:stop]] on a list, for arbitrary ints: a negative bound
    counts from the end, and both bounds are clamped to the list. *)
Definition slice_index (len i : Z) : Z :=
  if i <? 0 then Z.max 0 (len + i) else Z.min i len.

Definition py_slice {A : Type} (l : list A) (start stop : Z) : list A :=
  let len := Z.of_nat (length l) in
  let lo := slice_index len start in
  let hi := slice_index len stop in
  take (Z.to_nat (hi - lo)) (drop (Z.to_nat lo) l).

(** [dummy_vector = [0.0] * 1024] *)
Definition dummy_vector : list Float := replicate 1024 zero.

(** The [ContratoResponse] built from one match (lines 204-208 and
    258-262). *)
Definition contrato_de (m : Match) : ContratoResponse :=
  {| arquivo := default "" (m_metadata m !! "arquivo");
     texto := default "" (m_metadata m !! "texto");
     score := m_score m |}.

(** One turn of the loop of [listar_arquivos] (lines 317-320): the name is
    added when it is present and truthy, that is, not the empty string. *)
Definition juntar_arquivo (arquivos : gset string) (m : Match) : gset string :=
  match m_metadata m !! "arquivo" with
  | Some a => if String.eqb a "" then arquivos else {[ a ]} ∪ arquivos
  | None => arquivos
  end.

(** The set [arquivos] after the loop. *)
Definition arquivos_unicos (matches : list Match) : gset string :=
  foldl juntar_arquivo ∅ matches.

(** The [detail] of the 503 answer. *)
Definition INDISPONIVEL : string :=
  "Serviço temporariamente indisponível. Não foi possível conectar ao Pinecone.".

Section Gateway.

Variable w : Mundo.

(** *** The calls to the collaborators *)

(** [Pinecone(api_key=PINECONE_API_KEY)] *)
Definition Pinecone : M Client := fun s =>
  let r := pinecone_new w (historico s) in (r, registrar (EvPinecone r) s).

(** [pc.Index(PINECONE_INDEX_NAME, host=PINECONE_HOST)] *)
Definition Index (c : Client) : M Handle := fun s =>
  let r := pinecone_index w (historico s) c in (r, registrar (EvIndex c r) s).

(** [index.describe_index_stats()], on the global [index]; on [None] the
    attribute lookup raises. *)
Definition index_describe_index_stats : M (gmap string Z) := fun s =>
  match index s with
  | None =>
      (Raise "'NoneType' object has no attribute 'describe_index_stats'", s)
  | Some h =>
      let r := describe_index_stats w (historico s) h in
      (r, registrar (EvStats h r) s)
  end.

(** [index.query(vector=..., top_k=..., include_metadata=True).matches] *)
Definition index_query (vector : list Float) (top_k : Z) : M (list Match) :=
  fun s =>
    match index s with
    | None => (Raise "'NoneType' object has no attribute 'query'", s)
    | Some h =>
        let r := query w (historico s) h vector top_k in
        (r, registrar (EvQuery h vector top_k r) s)
    end.

(** [time.sleep(segundos)] *)
Definition sleep (segundos : Z) (s : Estado) : Estado :=
  registrar (EvSleep segundos) s.

(** [gerar_embedding(texto)]: the provider's exception is re-raised. *)
Definition gerar_embedding (texto : string) : M (list Float) := fun s =>
  let r := embeddings_create w (historico s) texto in
  (r, registrar (EvEmbedding texto r) s).

(** *** [conectar_pinecone] *)

(** The [try] block of [conectar_pinecone] (lines 38-52): the globals [pc]
    and [index] are assigned as soon as their constructors return, the
    statistics are fetched afterwards, and the counter is reset last. *)
Definition tentar_conexao : M unit :=
  c <~ Pinecone ;;
  modificar (set_pc c) ;;;
  h <~ Index c ;;
  modificar (set_index h) ;;;
  _stats <~ index_describe_index_stats ;;
  modificar (set_connection_attempts 0).

Lemma tentar_conexao_raise_attempts (s s1 : Estado) (e : Erro) :
  tentar_conexao s = (Raise e, s1) ->
  connection_attempts s1 = connection_attempts s.
Proof.
  unfold tentar_conexao, bind, Pinecone, Index, index_describe_index_stats,
    modificar.
  cbn.
  destruct (pinecone_new w (historico s)) as [c|e1]; cbn.
  - destruct (pinecone_index w _ c) as [h|e2]; cbn.
    + destruct (describe_index_stats w _ h) as [st|e3]; cbn;
        intros H; inversion H; reflexivity.
    + intros H; inversion H; reflexivity.
  - intros H; inversion H; reflexivity.
Qed.

(** The [except] block: count the failure, then either sleep two seconds
    and start over, or give up. *)
Equations? conectar_pinecone (s : Estado) : bool * Estado
  by wf (MAX_RECONNECT_ATTEMPTS - connection_attempts s)%nat lt :=
conectar_pinecone s with inspect (tentar_conexao s) := {
  | exist _ (Ok _, s1) _ => (true, s1)
  | exist _ (Raise e, s1) Htry
      with inspect (Nat.ltb (S (connection_attempts s1))
                            MAX_RECONNECT_ATTEMPTS) := {
      | exist _ true Hlt =>
          conectar_pinecone
            (sleep 2 (set_connection_attempts (S (connection_attempts s1)) s1))
      | exist _ false _ =>
          (false, set_connection_attempts (S (connection_attempts s1)) s1) } }.
Proof.
  apply tentar_conexao_raise_attempts in Htry.
  apply Nat.ltb_lt in Hlt. cbn. unfold MAX_RECONNECT_ATTEMPTS in *. lia.
Qed.

(** *** The connection check shared by the endpoints *)

(** The value of the condition [not index and not conectar_pinecone()]:
    [conectar_pinecone] runs only when [index] is falsy. *)
Definition sem_conexao (s : Estado) : bool * Estado :=
  match index s with
  | Some _ => (false, s)
  | None => let '(ok, s1) := conectar_pinecone s in (negb ok, s1)
  end.

(** *** [listar_contratos] *)

(** The [try] block of [listar_contratos] (lines 178-210). *)
Definition corpo_listar_contratos (skip limit : Z) : M SearchResponse :=
  stats <~ index_describe_index_stats ;;
  let total := default 0 (stats !! "total_vector_count") in
  matches_ <~ index_query dummy_vector (skip + limit) ;;
  let matches :=
    match matches_ with
    | [] => []
    | _ :: _ => py_slice matches_ skip (skip + limit)
    end in
  ret {| resultados := map contrato_de matches; total := total |}.

(** The endpoint.  The handler of the [try] block calls the endpoint itself
    again after a successful reconnection, so the recursion has no bound of
    its own; [fuel] bounds its depth, and [None] stands for a run that needs
    more. *)
Fixpoint listar_contratos (fuel : nat) (skip limit : Z) (s : Estado)
  : option (Resposta SearchResponse * Estado) :=
  match fuel with
  | O => None
  | S fuel' =>
      match sem_conexao s with
      | (true, s1) => Some (HTTPException 503 INDISPONIVEL, s1)
      | (false, s1) =>
          match corpo_listar_contratos skip limit s1 with
          | (Ok r, s2) => Some (Retorno r, s2)
          | (Raise e, s2) =>
              match conectar_pinecone s2 with
              | (true, s3) =>
                  match listar_contratos fuel' skip limit s3 with
                  | None => None
                  | Some (Retorno r, s4) => Some (Retorno r, s4)
                  | Some (HTTPException _ _, s4) =>
                      Some (HTTPException 500
                              ("Erro ao listar contratos: " +:+ e), s4)
                  end
              | (false, s3) =>
                  Some (HTTPException 500
                          ("Erro ao listar contratos: " +:+ e), s3)
              end
          end
      end
  end.

(** *** [buscar_contratos] *)

(** The [try] block of [buscar_contratos] (lines 245-266). *)
Definition corpo_buscar_contratos (q : string) (limit : Z)
  : M SearchResponse :=
  query_embedding <~ gerar_embedding q ;;
  matches <~ index_query query_embedding limit ;;
  let resultados := map contrato_de matches in
  ret {| resultados := resultados; total := Z.of_nat (length resultados) |}.

Fixpoint buscar_contratos (fuel : nat) (q : string) (limit : Z) (s : Estado)
  : option (Resposta SearchResponse * Estado) :=
  match fuel with
  | O => None
  | S fuel' =>
      if String.eqb q "" then
        Some (HTTPException 400 "A consulta não pode estar vazia", s)
      else
      match sem_conexao s with
      | (true, s1) => Some (HTTPException 503 INDISPONIVEL, s1)
      | (false, s1) =>
          match corpo_buscar_contratos q limit s1 with
          | (Ok r, s2) => Some (Retorno r, s2)
          | (Raise e, s2) =>
              match conectar_pinecone s2 with
              | (true, s3) =>
                  match buscar_contratos fuel' q limit s3 with
                  | None => None
                  | Some (Retorno r, s4) => Some (Retorno r, s4)
                  | Some (HTTPException _ _, s4) =>
                      Some (HTTPException 500
                              ("Erro ao realizar a busca: " +:+ e), s4)
                  end
              | (false, s3) =>
                  Some (HTTPException 500
                          ("Erro ao realizar a busca: " +:+ e), s3)
              end
          end
      end
  end.

(** *** [listar_arquivos] *)

(** The [try] block of [listar_arquivos] (lines 295-322); the value is the
    list stored under the key ["arquivos"] of the returned dict. *)
Definition corpo_listar_arquivos : M (list string) :=
  stats <~ index_describe_index_stats ;;
  let total := default 0 (stats !! "total_vector_count") in
  matches <~ index_query dummy_vector (Z.min total 1000) ;;
  ret (elements (arquivos_unicos matches)).

Fixpoint listar_arquivos (fuel : nat) (s : Estado)
  : option (Resposta (list string) * Estado) :=
  match fuel with
  | O => None
  | S fuel' =>
      match sem_conexao s with
      | (true, s1) => Some (HTTPException 503 INDISPONIVEL, s1)
      | (false, s1) =>
          match corpo_listar_arquivos s1 with
          | (Ok r, s2) => Some (Retorno r, s2)
          | (Raise e, s2) =>
              match conectar_pinecone s2 with
              | (true, s3) =>
                  match listar_arquivos fuel' s3 with
                  | None => None
                  | Some (Retorno r, s4) => Some (Retorno r, s4)
                  | Some (HTTPException _ _, s4) =>
                      Some (HTTPException 500
                              ("Erro ao listar arquivos: " +:+ e), s4)
                  end
              | (false, s3) =>
                  Some (HTTPException 500
                          ("Erro ao listar arquivos: " +:+ e), s3)
              end
          end
      end
  end.

(** *** [read_root] *)

(** The health check (lines 124-159).  Inside its [try] only
    [index.describe_index_stats()] can raise: [conectar_pinecone] catches
    every exception itself.  The handler reconnects and ignores the
    outcome. *)
Definition read_root (s : Estado) : gmap string Valor * Estado :=
  match index s with
  | Some _ =>
      match index_describe_index_stats s with
      | (Ok stats, s1) =>
          ({[ "status" := VStr "online";
              "message" :=
                VStr "Contratus AI API está funcionando com Pinecone!";
              "pinecone_status" := VStr "conectado";
              "total_vetores" :=
                VInt (default 0 (stats !! "total_vector_count")) ]}, s1)
      | (Raise e, s1) =>
          let '(_, s2) := conectar_pinecone s1 in
          ({[ "status" := VStr "degradado";
              "message" :=
                VStr "API está online, mas com problemas de conexão ao Pinecone.";
              "error" := VStr e ]}, s2)
      end
  | None =>
      match conectar_pinecone s with
      | (true, s1) =>
          ({[ "status" := VStr "online";
              "message" :=
                VStr "Contratus AI API está funcionando com Pinecone!";
              "pinecone_status" := VStr "reconectado" ]}, s1)
      | (false, s1) =>
          ({[ "status" := VStr "parcial";
              "message" :=
                VStr "API está online, mas sem conexão com Pinecone.";
              "pinecone_status" := VStr "desconectado" ]}, s1)
      end
  end.

End Gateway.

Arguments dummy_vector : simpl never.

(** ** Reading a history *)

Definition eh_tentativa (ev : Evento) : bool :=
  match ev with EvPinecone _ => true | _ => false end.

Definition eh_sleep (ev : Evento) : bool :=
  match ev with EvSleep _ => true | _ => false end.

Definition eh_query (ev : Evento) : bool :=
  match ev with EvQuery _ _ _ _ => true | _ => false end.

Definition eh_embedding (ev : Evento) : bool :=
  match ev with EvEmbedding _ _ => true | _ => false end.

(** The calls [conectar_pinecone] makes: the two constructors, the
    statistics probe and the pause. *)
Definition de_conexao (ev : Evento) : bool :=
  match ev with
  | EvPinecone _ | EvIndex _ _ | EvStats _ _ | EvSleep _ => true
  | EvQuery _ _ _ _ | EvEmbedding _ _ => false
  end.

(** How many events of a history satisfy [p]. *)
Definition contar (p : Evento -> bool) (hist : list Evento) : nat :=
  length (List.filter p hist).

(** Scores never go up along the list. *)
Definition nao_crescente (scores : list Float) : Prop :=
  forall (i : nat) (a b : Float),
    scores !! i = Some a -> scores !! S i = Some b -> SFleb b a = true.

(** What the claims assume of the store: a query answers with at most
    [top_k] matches, best first. *)
Definition loja_ordenada (w : Mundo) : Prop :=
  forall hist h v top_k ms,
    query w hist h v top_k = Ok ms ->
    Z.of_nat (length ms) <= top_k /\ nao_crescente (map m_score ms).

(** The statistics probe fails whenever it is tried. *)
Definition sonda_falha (w : Mundo) : Prop :=
  forall hist h, exists e, describe_index_stats w hist h = Raise e.

(** ** Worlds used to run the code *)

Definition match_a : Match :=
  {| m_id := "v1"; m_score := S754_finite false 3 0;
     m_metadata := {[ "arquivo" := "a.pdf"; "texto" := "primeiro" ]} |}.

Definition match_b : Match :=
  {| m_id := "v2"; m_score := S754_finite false 2 0;
     m_metadata := {[ "arquivo" := ""; "texto" := "segundo" ]} |}.

Definition match_c : Match :=
  {| m_id := "v3"; m_score := S754_finite false 1 0;
     m_metadata := {[ "arquivo" := "a.pdf" ]} |}.

Definition match_d : Match :=
  {| m_id := "v4"; m_score := S754_finite false 1 0;
     m_metadata := {[ "texto" := "quarto" ]} |}.

Definition acervo : list Match := [match_a; match_b; match_c; match_d].

Definition estatisticas : gmap string Z := {[ "total_vector_count" := 4 ]}.

(** A healthy store holding [acervo]: a query answers with the [top_k]
    best matches and rejects a negative [top_k]. *)
Definition mundo_estavel : Mundo :=
  {| pinecone_new := fun _ => Ok 1%nat;
     pinecone_index := fun _ _ => Ok 7%nat;
     describe_index_stats := fun _ _ => Ok estatisticas;
     query := fun _ _ _ top_k =>
       if top_k <? 0 then Raise "top_k must be non-negative"
       else Ok (take (Z.to_nat top_k) acervo);
     embeddings_create := fun _ _ => Ok dummy_vector |}.

(** The store is unreachable: the constructors, which make no network
    call, return, and the statistics probe raises. *)
Definition mundo_sonda_falha : Mundo :=
  {| pinecone_new := fun _ => Ok 1%nat;
     pinecone_index := fun _ _ => Ok 7%nat;
     describe_index_stats := fun _ _ => Raise "connection refused";
     query := fun _ _ _ _ => Raise "connection refused";
     embeddings_create := fun _ _ => Ok dummy_vector |}.

(** No API key is configured: the client constructor itself raises. *)
Definition mundo_sem_chave : Mundo :=
  {| pinecone_new := fun _ => Raise "no API key";
     pinecone_index := fun _ _ => Raise "no client";
     describe_index_stats := fun _ _ => Raise "no index";
     query := fun _ _ _ _ => Raise "no index";
     embeddings_create := fun _ _ => Ok dummy_vector |}.

(** The statistics probe always answers, and the first [n] queries of the
    process raise; later ones answer as the healthy store does. *)
Definition mundo_instavel (n : nat) : Mundo :=
  {| pinecone_new := fun _ => Ok 1%nat;
     pinecone_index := fun _ _ => Ok 7%nat;
     describe_index_stats := fun _ _ => Ok estatisticas;
     query := fun hist _ _ top_k =>
       if (contar eh_query hist <? n)%nat then Raise "stale handle"
       else Ok (take (Z.to_nat top_k) acervo);
     embeddings_create := fun _ _ => Ok dummy_vector |}.

(** Every query raises, with a text that tells the first failure from the
    later ones, and the store stops answering the statistics probe once
    two queries have been made. *)
Definition mundo_em_queda : Mundo :=
  {| pinecone_new := fun _ => Ok 1%nat;
     pinecone_index := fun _ _ => Ok 7%nat;
     describe_index_stats := fun hist _ =>
       if (contar eh_query hist <? 2)%nat then Ok estatisticas
       else Raise "connection refused";
     query := fun hist _ _ _ =>
       if (contar eh_query hist =? 0)%nat then Raise "primeira falha"
       else Raise "falha da nova tentativa";
     embeddings_create := fun _ _ => Ok dummy_vector |}.

(** ** Definitions used by the further properties *)

(** The handle returned by the most recent [pc.Index] call that returned,
    if the history has one. *)
Fixpoint ultimo_index (hist : list Evento) : option Handle :=
  match hist with
  | [] => None
  | EvIndex _ (Ok h) :: _ => Some h
  | _ :: resto => ultimo_index resto
  end.

(** The pauses of a history are all of two seconds. *)
Definition pausas_de_2 (hist : list Evento) : Prop :=
  forall n, EvSleep n ∈ hist -> n = 2.

(** A state in which the start-up connection has succeeded. *)
Definition estado_conectado : Estado :=
  (conectar_pinecone mundo_estavel estado_inicial).2.



(** ** [conectar_pinecone]: unfolding and structure *)

Lemma conectar_pinecone_eq (w : Mundo) (s : Estado) :
  conectar_pinecone w s =
  match tentar_conexao w s with
  | (Ok _, s1) => (true, s1)
  | (Raise e, s1) =>
      let s2 := set_connection_attempts (S (connection_attempts s1)) s1 in
      if (S (connection_attempts s1) <? MAX_RECONNECT_ATTEMPTS)%nat
      then conectar_pinecone w (sleep 2 s2)
      else (false, s2)
  end.
Proof.
  funelim (conectar_pinecone w s);
    repeat match goal with
      | H : tentar_conexao _ _ = _ |- _ => rewrite H
      | H : (_ <? _)%nat = _ |- _ => rewrite H
      end;
    reflexivity.
Qed.

Lemma contar_app (p : Evento -> bool) (a b : list Evento) :
  contar p (a ++ b) = (contar p a + contar p b)%nat.
Proof. unfold contar. rewrite List.filter_app, length_app. reflexivity. Qed.

(** What one attempt does to the state, case by case on the answers. *)
Lemma tentar_conexao_casos (w : Mundo) (s : Estado) :
  (exists e,
      pinecone_new w (historico s) = Raise e /\
      tentar_conexao w s =
        (Raise e, registrar (EvPinecone (Raise e)) s)) \/
  (exists c e,
      tentar_conexao w s =
        (Raise e,
         registrar (EvIndex c (Raise e))
           (set_pc c (registrar (EvPinecone (Ok c)) s)))) \/
  (exists c h e,
      describe_index_stats w
        (EvIndex c (Ok h) :: EvPinecone (Ok c) :: historico s) h = Raise e /\
      tentar_conexao w s =
        (Raise e,
         registrar (EvStats h (Raise e))
           (set_index h (registrar (EvIndex c (Ok h))
              (set_pc c (registrar (EvPinecone (Ok c)) s)))))) \/
  (exists c h st,
      tentar_conexao w s =
        (Ok tt,
         set_connection_attempts 0
           (registrar (EvStats h (Ok st))
              (set_index h (registrar (EvIndex c (Ok h))
                 (set_pc c (registrar (EvPinecone (Ok c)) s))))))).
Proof.
  unfold tentar_conexao, bind, Pinecone, Index, index_describe_index_stats,
    modificar.
  cbn.
  destruct (pinecone_new w (historico s)) as [c|e1] eqn:Hc; cbn.
  - destruct (pinecone_index w _ c) as [h|e2] eqn:Hh; cbn.
    + destruct (describe_index_stats w _ h) as [st|e3] eqn:Hst; cbn.
      * right; right; right. exists c, h, st. reflexivity.
      * right; right; left. exists c, h, e3. split; [exact Hst | reflexivity].
    + right; left. exists c, e2. reflexivity.
  - left. exists e1. split; reflexivity.
Qed.

(** One attempt makes between one and three calls, the first of them the
    client constructor, and never sleeps. *)
Lemma tentar_conexao_historico (w : Mundo) (s s1 : Estado)
      (r : Resultado unit) :
  tentar_conexao w s = (r, s1) ->
  exists novos,
    historico s1 = novos ++ historico s /\
    Forall (fun ev => de_conexao ev = true) novos /\
    contar eh_tentativa novos = 1%nat /\
    contar eh_sleep novos = 0%nat /\
    (r = Ok tt -> connection_attempts s1 = 0%nat) /\
    (forall e, r = Raise e ->
               connection_attempts s1 = connection_attempts s).
Proof.
  intros H.
  destruct (tentar_conexao_casos w s)
    as [(e & _ & E) | [(c & e & E) | [(c & h & e & _ & E)
       | (c & h & st & E)]]];
    rewrite E in H; inversion H; subst; clear H E.
  - exists [EvPinecone (Raise e)]. repeat split; try discriminate.
    repeat constructor.
  - exists [EvIndex c (Raise e); EvPinecone (Ok c)].
    repeat split; try discriminate. repeat constructor.
  - exists [EvStats h (Raise e); EvIndex c (Ok h); EvPinecone (Ok c)].
    repeat split; try discriminate. repeat constructor.
  - exists [EvStats h (Ok st); EvIndex c (Ok h); EvPinecone (Ok c)].
    repeat split; try discriminate. repeat constructor.
Qed.

(** Induction along the recursion of [conectar_pinecone]. *)
Lemma conectar_pinecone_rec (w : Mundo) (P : Estado -> bool * Estado -> Prop) :
  (forall s s1 u, tentar_conexao w s = (Ok u, s1) -> P s (true, s1)) ->
  (forall s s1 e,
      tentar_conexao w s = (Raise e, s1) ->
      (S (connection_attempts s1) < MAX_RECONNECT_ATTEMPTS)%nat ->
      let s2 :=
        sleep 2 (set_connection_attempts (S (connection_attempts s1)) s1) in
      P s2 (conectar_pinecone w s2) ->
      P s (conectar_pinecone w s2)) ->
  (forall s s1 e,
      tentar_conexao w s = (Raise e, s1) ->
      (MAX_RECONNECT_ATTEMPTS <= S (connection_attempts s1))%nat ->
      P s (false, set_connection_attempts (S (connection_attempts s1)) s1)) ->
  forall s, P s (conectar_pinecone w s).
Proof.
  intros Hok Hrec Hfim s.
  remember (MAX_RECONNECT_ATTEMPTS - connection_attempts s)%nat as k eqn:Hk.
  revert s Hk.
  induction k as [k IH] using lt_wf_ind. intros s Hk.
  rewrite conectar_pinecone_eq.
  destruct (tentar_conexao w s) as [[u|e] s1] eqn:Ht.
  - eapply Hok; eassumption.
  - cbn zeta.
    destruct (S (connection_attempts s1) <? MAX_RECONNECT_ATTEMPTS)%nat
      eqn:Hlt.
    + apply Nat.ltb_lt in Hlt.
      eapply Hrec; [eassumption | assumption |].
      eapply IH; [| reflexivity].
      apply tentar_conexao_raise_attempts in Ht. cbn.
      unfold MAX_RECONNECT_ATTEMPTS in *. lia.
    + apply Nat.ltb_ge in Hlt. eapply Hfim; eassumption.
Qed.

(** [conectar_pinecone] only adds connection calls to the history: it never
    queries the index and never asks for an embedding. *)
Lemma conectar_pinecone_historico (w : Mundo) (s : Estado) :
  exists novos,
    historico (conectar_pinecone w s).2 = novos ++ historico s /\
    Forall (fun ev => de_conexao ev = true) novos.
Proof.
  apply (conectar_pinecone_rec w
           (fun s r => exists novos,
                historico r.2 = novos ++ historico s /\
                Forall (fun ev => de_conexao ev = true) novos)).
  - intros s0 s1 u Ht.
    destruct (tentar_conexao_historico _ _ _ _ Ht) as (n & Hn & Hf & _).
    exists n. split; assumption.
  - intros s0 s1 e Ht _ s2 (n2 & Hn2 & Hf2).
    destruct (tentar_conexao_historico _ _ _ _ Ht) as (n & Hn & Hf & _).
    exists (n2 ++ EvSleep 2 :: n). split.
    + rewrite Hn2. subst s2. cbn. rewrite Hn, <- app_assoc. reflexivity.
    + apply Forall_app. split; [assumption |].
      constructor; [reflexivity | assumption].
  - intros s0 s1 e Ht _.
    destruct (tentar_conexao_historico _ _ _ _ Ht) as (n & Hn & Hf & _).
    exists n. split; assumption.
Qed.

Lemma de_conexao_contar (novos : list Evento) :
  Forall (fun ev => de_conexao ev = true) novos ->
  contar eh_query novos = 0%nat /\ contar eh_embedding novos = 0%nat.
Proof.
  unfold contar.
  induction 1 as [| ev l Hev _ [IHq IHe]]; [split; reflexivity |].
  destruct ev; cbn in *; try discriminate; split; assumption.
Qed.

(** After a successful [conectar_pinecone] the handle is set, the last call
    made is the statistics probe on that very handle, it answered, and the
    failure counter is back to zero. *)
Lemma conectar_pinecone_sucesso (w : Mundo) (s s' : Estado) :
  conectar_pinecone w s = (true, s') ->
  exists h st resto,
    index s' = Some h /\
    historico s' = EvStats h (Ok st) :: resto /\
    connection_attempts s' = 0%nat.
Proof.
  revert s'.
  apply (conectar_pinecone_rec w
           (fun s r => forall s', r = (true, s') ->
              exists h st resto,
                index s' = Some h /\
                historico s' = EvStats h (Ok st) :: resto /\
                connection_attempts s' = 0%nat)).
  - intros s0 s1 u Ht s' E. inversion E; subst.
    destruct (tentar_conexao_casos w s0)
      as [(e & _ & E1) | [(c & e & E1) | [(c & h & e & _ & E1)
         | (c & h & st & E1)]]];
      rewrite E1 in Ht; inversion Ht; subst.
    exists h, st, (EvIndex c (Ok h) :: EvPinecone (Ok c) :: historico s0).
    repeat split.
  - intros s0 s1 e _ _ s2 IH s' E. apply IH. assumption.
  - intros s0 s1 e _ _ s' E. discriminate.
Qed.

(** ** The bodies of the [try] blocks *)

Ltac passo_corpo :=
  match goal with
  | H : index ?s = _ |- context [index ?s] => rewrite H
  | |- context [match index ?s with _ => _ end] =>
      destruct (index s) eqn:?
  | |- context [describe_index_stats ?w ?a ?b] =>
      destruct (describe_index_stats w a b) eqn:?
  | |- context [query ?w ?a ?b ?c ?d] =>
      destruct (query w a b c d) eqn:?
  | |- context [embeddings_create ?w ?a ?b] =>
      destruct (embeddings_create w a b) eqn:?
  end; cbn.

Ltac abrir_corpo :=
  unfold bind, ret, index_describe_index_stats, index_query, gerar_embedding;
  cbn; repeat passo_corpo;
  let H := fresh in
  intros H; try discriminate H; inversion H; subst; clear H.

Lemma corpo_listar_contratos_ok (w : Mundo) (skip limit : Z)
      (s1 s2 : Estado) (r : SearchResponse) :
  corpo_listar_contratos w skip limit s1 = (Ok r, s2) ->
  exists h stats ms,
    index s1 = Some h /\
    historico s2 =
      EvQuery h dummy_vector (skip + limit) (Ok ms)
        :: EvStats h (Ok stats) :: historico s1 /\
    index s2 = Some h /\
    total r = default 0 (stats !! "total_vector_count") /\
    resultados r =
      map contrato_de
          (match ms with
           | [] => []
           | _ :: _ => py_slice ms skip (skip + limit)
           end).
Proof.
  unfold corpo_listar_contratos. abrir_corpo.
  eexists _, _, _. repeat split; eassumption.
Qed.

Lemma corpo_buscar_contratos_ok (w : Mundo) (q : string) (limit : Z)
      (s1 s2 : Estado) (r : SearchResponse) :
  corpo_buscar_contratos w q limit s1 = (Ok r, s2) ->
  exists h v ms,
    index s1 = Some h /\
    query w (EvEmbedding q (Ok v) :: historico s1) h v limit = Ok ms /\
    historico s2 =
      EvQuery h v limit (Ok ms) :: EvEmbedding q (Ok v) :: historico s1 /\
    resultados r = map contrato_de ms /\
    total r = Z.of_nat (length (resultados r)).
Proof.
  unfold corpo_buscar_contratos. abrir_corpo.
  eexists _, _, _. repeat split; eassumption.
Qed.

Lemma corpo_listar_arquivos_ok (w : Mundo) (s1 s2 : Estado)
      (r : list string) :
  corpo_listar_arquivos w s1 = (Ok r, s2) ->
  exists h stats ms,
    index s1 = Some h /\
    historico s2 =
      EvQuery h dummy_vector
              (Z.min (default 0 (stats !! "total_vector_count")) 1000)
              (Ok ms)
        :: EvStats h (Ok stats) :: historico s1 /\
    r = elements (arquivos_unicos ms).
Proof.
  unfold corpo_listar_arquivos. abrir_corpo.
  eexists _, _, _. repeat split; eassumption.
Qed.

(** ** The reconnect-and-replay wrapper *)

(** A value returned by an endpoint was returned by its [try] block, run
    to the end as the last thing the endpoint did, however many times the
    endpoint called itself before. *)
Ltac retorno_vem_do_corpo IH :=
  match goal with
  | H : context [sem_conexao ?w ?s] |- _ =>
      destruct (sem_conexao w s) as [[|] ?s1]; [discriminate |]
  end;
  match goal with
  | H : match ?corpo with _ => _ end = Some _ |- _ =>
      let Hc := fresh "Hcorpo" in
      destruct corpo as [[?r1|?e] ?s2] eqn:Hc;
      [ inversion H; subst; eexists; eassumption |]
  end;
  match goal with
  | H : context [conectar_pinecone ?w ?s] |- _ =>
      destruct (conectar_pinecone w s) as [[|] ?s3]; [| discriminate]
  end;
  match goal with
  | H : match ?rec with _ => _ end = Some _ |- _ =>
      let Hr := fresh "Hrec" in
      destruct rec as [[[?r4|? ?] ?s4]|] eqn:Hr; try discriminate;
      inversion H; subst; eapply IH; eassumption
  end.

Lemma listar_contratos_retorno (w : Mundo) (skip limit : Z) (fuel : nat) :
  forall s r s',
    listar_contratos w fuel skip limit s = Some (Retorno r, s') ->
    exists s1, corpo_listar_contratos w skip limit s1 = (Ok r, s').
Proof.
  induction fuel as [| fuel IH]; intros s r s' H; [discriminate |].
  cbn [listar_contratos] in H.
  retorno_vem_do_corpo IH.
Qed.

Lemma buscar_contratos_retorno (w : Mundo) (q : string) (limit : Z)
      (fuel : nat) :
  forall s r s',
    buscar_contratos w fuel q limit s = Some (Retorno r, s') ->
    exists s1, corpo_buscar_contratos w q limit s1 = (Ok r, s').
Proof.
  induction fuel as [| fuel IH]; intros s r s' H; [discriminate |].
  cbn [buscar_contratos] in H.
  destruct (String.eqb q ""); [discriminate |].
  retorno_vem_do_corpo IH.
Qed.

Lemma listar_arquivos_retorno (w : Mundo) (fuel : nat) :
  forall s r s',
    listar_arquivos w fuel s = Some (Retorno r, s') ->
    exists s1, corpo_listar_arquivos w s1 = (Ok r, s').
Proof.
  induction fuel as [| fuel IH]; intros s r s' H; [discriminate |].
  cbn [listar_arquivos] in H.
  retorno_vem_do_corpo IH.
Qed.

(** ** [conectar_pinecone]: what a failure leaves behind *)

(** A statistics probe that answered. *)
Definition eh_sonda_ok (ev : Evento) : bool :=
  match ev with EvStats _ (Ok _) => true | _ => false end.

(** C1, evaluated on the code.  The claim is that a [conectar_pinecone]
    that gives up leaves [index] unset, so that [index] is never a handle
    whose probe did not answer.  With the store unreachable the two
    constructors return and only the probe raises; the global [index] was
    assigned before the probe, and nothing resets it: the call returns
    [False] after three attempts and [index] holds a handle no probe ever
    answered for. *)
Theorem conectar_pinecone_falha_deixa_index :
  exists s,
    conectar_pinecone mundo_sonda_falha estado_inicial = (false, s) /\
    index estado_inicial = None /\
    index s = Some 7%nat /\
    contar eh_sonda_ok (historico s) = 0%nat.
Proof.
  eexists. split; [vm_compute; reflexivity |].
  repeat split.
Qed.

(** When the probe never answers, no attempt succeeds. *)
Lemma sonda_falha_tentar (w : Mundo) (s : Estado) :
  sonda_falha w -> exists e s1, tentar_conexao w s = (Raise e, s1).
Proof.
  intros Hw.
  destruct (tentar_conexao_casos w s)
    as [(e & _ & E) | [(c & e & E) | [(c & h & e & _ & E)
       | (c & h & st & E)]]]; try (rewrite E; eauto; fail).
  exfalso.
  revert E.
  unfold tentar_conexao, bind, Pinecone, Index, index_describe_index_stats,
    modificar. cbn.
  destruct (pinecone_new w (historico s)) as [c'|]; cbn; [| discriminate].
  destruct (pinecone_index w _ c') as [h'|]; cbn; [| discriminate].
  destruct (Hw (EvIndex c' (Ok h') :: EvPinecone (Ok c') :: historico s) h')
    as [e He].
  rewrite He. discriminate.
Qed.

(** The number of attempts of one call against a store whose probe never
    answers: three from a counter at zero, and a single one, without any
    pause, once the counter has reached two or more.  The counter is reset
    only by a success, so every call that follows a failed one is in the
    second case. *)
Lemma conectar_pinecone_tentativas (w : Mundo) (s : Estado) :
  sonda_falha w ->
  exists novos,
    (conectar_pinecone w s).1 = false /\
    historico (conectar_pinecone w s).2 = novos ++ historico s /\
    contar eh_tentativa novos
      = Nat.max 1 (MAX_RECONNECT_ATTEMPTS - connection_attempts s) /\
    S (contar eh_sleep novos) = contar eh_tentativa novos /\
    connection_attempts (conectar_pinecone w s).2
      = Nat.max (S (connection_attempts s)) MAX_RECONNECT_ATTEMPTS.
Proof.
  intros Hw.
  apply (conectar_pinecone_rec w
           (fun s r => exists novos,
                r.1 = false /\
                historico r.2 = novos ++ historico s /\
                contar eh_tentativa novos
                  = Nat.max 1 (MAX_RECONNECT_ATTEMPTS - connection_attempts s)
                /\ S (contar eh_sleep novos) = contar eh_tentativa novos /\
                connection_attempts r.2
                  = Nat.max (S (connection_attempts s))
                            MAX_RECONNECT_ATTEMPTS)).
  - intros s0 s1 u Ht.
    destruct (sonda_falha_tentar w s0 Hw) as (e & s1' & E).
    rewrite E in Ht. discriminate.
  - intros s0 s1 e Ht Hlt s2 (n2 & Hb & Hh & Hn & Hs & Hc).
    destruct (tentar_conexao_historico _ _ _ _ Ht)
      as (n & Hn1 & _ & Ht1 & Hs1 & _ & Hat).
    specialize (Hat e eq_refl).
    exists (n2 ++ EvSleep 2 :: n). split; [assumption |].
    subst s2. cbn in Hh, Hn, Hc. rewrite Hat in *.
    unfold MAX_RECONNECT_ATTEMPTS in *.
    split; [rewrite Hh, Hn1, <- app_assoc; reflexivity |].
    rewrite !contar_app.
    change (EvSleep 2 :: n) with ([EvSleep 2] ++ n).
    rewrite !contar_app. cbn. lia.
  - intros s0 s1 e Ht Hge.
    destruct (tentar_conexao_historico _ _ _ _ Ht)
      as (n & Hn1 & _ & Ht1 & Hs1 & _ & Hat).
    specialize (Hat e eq_refl).
    exists n. cbn. rewrite Hat in *.
    unfold MAX_RECONNECT_ATTEMPTS in *.
    repeat split; [assumption | lia | lia | lia].
Qed.

(** C2, evaluated on the code.  The claim is that every call of
    [conectar_pinecone] against a store that fails deterministically makes
    exactly three attempts, whatever earlier calls did.  The first call of
    a process does: three attempts, two pauses.  It leaves
    [connection_attempts] at three, and the second call then makes one
    attempt and gives up without pausing. *)
Theorem conectar_pinecone_segunda_chamada :
  exists s1 s2,
    conectar_pinecone mundo_sonda_falha estado_inicial = (false, s1) /\
    contar eh_tentativa (historico s1) = 3%nat /\
    contar eh_sleep (historico s1) = 2%nat /\
    connection_attempts s1 = 3%nat /\
    conectar_pinecone mundo_sonda_falha s1 = (false, s2) /\
    contar eh_tentativa (historico s2) = 4%nat /\
    contar eh_sleep (historico s2) = 2%nat.
Proof.
  eexists. eexists.
  split; [vm_compute; reflexivity |].
  split; [reflexivity |]. split; [reflexivity |]. split; [reflexivity |].
  split; [vm_compute; reflexivity |].
  split; reflexivity.
Qed.

(** ** The endpoints: retries *)

(** C3, evaluated on the code.  The claim is that an endpoint replays its
    work at most once per call.  The replay is a call of the endpoint
    itself, which has the same handler, so a replay that fails after a
    successful reconnection is replayed again.  Against a store whose
    probe answers and whose first two queries raise, one call of each
    endpoint queries three times, the original run and two replays, and
    returns the third answer; a recursion depth of two is not enough for
    it. *)
Theorem endpoints_repetem_o_retry :
  (listar_contratos (mundo_instavel 2) 2 0 2 estado_inicial = None /\
   exists r s,
     listar_contratos (mundo_instavel 2) 3 0 2 estado_inicial
       = Some (Retorno r, s) /\
     contar eh_query (historico s) = 3%nat) /\
  (buscar_contratos (mundo_instavel 2) 2 "aluguel" 2 estado_inicial = None /\
   exists r s,
     buscar_contratos (mundo_instavel 2) 3 "aluguel" 2 estado_inicial
       = Some (Retorno r, s) /\
     contar eh_query (historico s) = 3%nat) /\
  (listar_arquivos (mundo_instavel 2) 2 estado_inicial = None /\
   exists r s,
     listar_arquivos (mundo_instavel 2) 3 estado_inicial
       = Some (Retorno r, s) /\
     contar eh_query (historico s) = 3%nat).
Proof.
  repeat split; try (vm_compute; reflexivity);
    eexists; eexists; (split; [vm_compute; reflexivity |]);
    vm_compute; reflexivity.
Qed.

(** ** The endpoints: the connection check and the argument check *)

Lemma sem_conexao_falha (w : Mundo) (s s1 : Estado) :
  index s = None ->
  conectar_pinecone w s = (false, s1) ->
  sem_conexao w s = (true, s1).
Proof.
  intros Hi Hc. unfold sem_conexao. rewrite Hi, Hc. reflexivity.
Qed.

(** C4.  When [index] is unset and [conectar_pinecone] fails, each of the
    three endpoints raises a 503 and does nothing else: the state it leaves
    is the one [conectar_pinecone] left, and the calls made since the
    endpoint was entered contain no vector query and no embedding request.
    For the search this is the case of a non-empty query, the only one in
    which it reaches the connection check. *)
Theorem sem_conexao_503 (w : Mundo) (s s1 : Estado) (fuel : nat)
        (skip limit : Z) (q : string) :
  index s = None ->
  conectar_pinecone w s = (false, s1) ->
  q <> "" ->
  listar_contratos w (S fuel) skip limit s
    = Some (HTTPException 503 INDISPONIVEL, s1) /\
  buscar_contratos w (S fuel) q limit s
    = Some (HTTPException 503 INDISPONIVEL, s1) /\
  listar_arquivos w (S fuel) s
    = Some (HTTPException 503 INDISPONIVEL, s1) /\
  exists novos,
    historico s1 = novos ++ historico s /\
    contar eh_query novos = 0%nat /\
    contar eh_embedding novos = 0%nat.
Proof.
  intros Hi Hc Hq.
  pose proof (sem_conexao_falha w s s1 Hi Hc) as Hs.
  apply String.eqb_neq in Hq.
  cbn [listar_contratos buscar_contratos listar_arquivos].
  rewrite Hq, Hs.
  repeat split.
  destruct (conectar_pinecone_historico w s) as (novos & Hn & Hf).
  rewrite Hc in Hn. cbn in Hn.
  exists novos. split; [assumption |].
  apply de_conexao_contar. assumption.
Qed.

Lemma sem_conexao_503_witness :
  exists s1,
    conectar_pinecone mundo_sem_chave estado_inicial = (false, s1) /\
    listar_contratos mundo_sem_chave 1 0 10 estado_inicial
      = Some (HTTPException 503 INDISPONIVEL, s1) /\
    buscar_contratos mundo_sem_chave 1 "aluguel" 5 estado_inicial
      = Some (HTTPException 503 INDISPONIVEL, s1) /\
    listar_arquivos mundo_sem_chave 1 estado_inicial
      = Some (HTTPException 503 INDISPONIVEL, s1).
Proof.
  eexists. split; [vm_compute; reflexivity |].
  match goal with
  | |- context [Some (_, ?s1)] =>
      destruct (sem_conexao_503 mundo_sem_chave estado_inicial s1 0 0 10
                  "aluguel")
        as (Hl & Hb & Ha & _);
        [reflexivity | vm_compute; reflexivity | discriminate |]
  end.
  repeat split; assumption.
Defined.

(** C5.  An empty query makes the search raise a 400 before anything else
    happens: the state, and with it the history of calls to the embedding
    provider, to [conectar_pinecone] and to the index, is returned
    unchanged, whatever the world and the state are. *)
Theorem buscar_contratos_consulta_vazia (w : Mundo) (fuel : nat) (limit : Z)
        (s : Estado) :
  buscar_contratos w (S fuel) "" limit s
    = Some (HTTPException 400 "A consulta não pode estar vazia", s).
Proof. reflexivity. Qed.

(** ** The endpoints: what a returned value is *)

Lemma scores_dos_contratos (ms : list Match) :
  map score (map contrato_de ms) = map m_score ms.
Proof. induction ms as [| m ms IH]; [reflexivity |]. cbn. by rewrite IH. Qed.

(** The texts of the hits built from [ms]: what the metadata of each match
    holds under ["arquivo"] and under ["texto"], the empty string where a
    key is missing. *)
Lemma campos_dos_contratos (ms : list Match) :
  map arquivo (map contrato_de ms)
    = map (fun m => default "" (m_metadata m !! "arquivo")) ms /\
  map texto (map contrato_de ms)
    = map (fun m => default "" (m_metadata m !! "texto")) ms.
Proof. split; rewrite List.map_map; reflexivity. Qed.

(** For bounds that are not negative, the Python slice
    [l[skip:skip+limit]] drops [skip] elements and keeps the next
    [limit]. *)
Lemma py_slice_janela {A : Type} (l : list A) (skip limit : Z) :
  0 <= skip -> 0 <= limit ->
  py_slice l skip (skip + limit)
    = take (Z.to_nat limit) (drop (Z.to_nat skip) l).
Proof.
  intros Hs Hl. unfold py_slice, slice_index.
  destruct (skip <? 0) eqn:E1; [apply Z.ltb_lt in E1; lia |].
  destruct (skip + limit <? 0) eqn:E2; [apply Z.ltb_lt in E2; lia |].
  destruct (Z_le_gt_dec (Z.of_nat (length l)) skip) as [Hge | Hlt].
  - rewrite (drop_ge l (Z.to_nat skip)) by lia.
    rewrite (drop_ge l) by lia.
    by rewrite !take_nil.
  - rewrite (Z.min_l skip) by lia.
    destruct (Z_le_gt_dec (skip + limit) (Z.of_nat (length l))) as [H1 | H1].
    + rewrite Z.min_l by lia. f_equal. lia.
    + rewrite Z.min_r by lia.
      rewrite !take_ge; [reflexivity | |]; rewrite length_drop; lia.
Qed.

Lemma mundo_estavel_ordenado : loja_ordenada mundo_estavel.
Proof.
  intros hist h v top_k ms H. cbn in H.
  destruct (top_k <? 0) eqn:E; [discriminate |].
  apply Z.ltb_ge in E. inversion H; subst; clear H.
  split.
  - rewrite length_take. cbn [acervo length]. lia.
  - unfold acervo.
    destruct (Z.to_nat top_k) as [| [| [| [| n]]]]; cbn;
      rewrite ?take_nil;
      intros [| [| [| [| i]]]] a b Ha Hb; cbn in Ha, Hb;
      try discriminate; inversion Ha; inversion Hb; subst; reflexivity.
Qed.

(** C6.  When the store answers a query with at most [top_k] matches,
    best first, a search that returns hands back the matches of its last
    query, one hit per match and in the store's order: [total] is the
    number of hits, there are at most [limit] of them, and their scores
    never go up.  Each hit carries the score of its match and the texts
    its metadata holds under ["arquivo"] and ["texto"], the empty string
    for a missing key. *)
Theorem buscar_contratos_retorna (w : Mundo) (fuel : nat) (q : string)
        (limit : Z) (s s' : Estado) (r : SearchResponse) :
  loja_ordenada w ->
  buscar_contratos w fuel q limit s = Some (Retorno r, s') ->
  total r = Z.of_nat (length (resultados r)) /\
  Z.of_nat (length (resultados r)) <= limit /\
  nao_crescente (map score (resultados r)) /\
  exists h v ms resto,
    historico s' = EvQuery h v limit (Ok ms) :: resto /\
    resultados r = map contrato_de ms /\
    map score (resultados r) = map m_score ms /\
    map arquivo (resultados r)
      = map (fun m => default "" (m_metadata m !! "arquivo")) ms /\
    map texto (resultados r)
      = map (fun m => default "" (m_metadata m !! "texto")) ms.
Proof.
  intros Hw H.
  apply buscar_contratos_retorno in H as (s1 & Hc).
  apply corpo_buscar_contratos_ok in Hc
    as (h & v & ms & _ & Hq & Hh & Hr & Ht).
  apply Hw in Hq as (Hlen & Hord).
  destruct (campos_dos_contratos ms) as (Ha & Hx).
  rewrite Hr in *. rewrite length_map in *. rewrite scores_dos_contratos.
  repeat split; try assumption.
  exists h, v, ms, (EvEmbedding q (Ok v) :: historico s1).
  repeat split; assumption.
Qed.

Lemma buscar_contratos_retorna_witness :
  exists r s',
    buscar_contratos mundo_estavel 1 "aluguel" 3 estado_inicial
      = Some (Retorno r, s') /\
    total r = Z.of_nat (length (resultados r)) /\
    Z.of_nat (length (resultados r)) <= 3 /\
    nao_crescente (map score (resultados r)) /\
    map arquivo (resultados r) = ["a.pdf"; ""; "a.pdf"] /\
    map texto (resultados r) = ["primeiro"; "segundo"; ""].
Proof.
  destruct (buscar_contratos mundo_estavel 1 "aluguel" 3 estado_inicial)
    as [[[r | c d] s'] |] eqn:E;
    try (vm_compute in E; discriminate E).
  exists r, s'. split; [reflexivity |].
  destruct (buscar_contratos_retorna mundo_estavel 1 "aluguel" 3
              estado_inicial s' r mundo_estavel_ordenado E)
    as (Ht & Hl & Ho & _).
  repeat split; try assumption;
    vm_compute in E; injection E as <- _; reflexivity.
Defined.

(** C7.  For [skip] and [limit] that are not negative, a listing that
    returns made, as its last two calls, a statistics request and a query
    with the zero vector for [skip + limit] neighbours: [total] is the
    vector count of that statistics answer (zero when the answer has
    none), whatever [skip] and [limit] are, and the hits are the matches
    of that query from position [skip] on, [limit] of them at most, in the
    store's order.  With [limit] at zero there are no hits.  Each hit
    carries the score of its match and the texts its metadata holds under
    ["arquivo"] and ["texto"], the empty string for a missing key. *)
Theorem listar_contratos_retorna (w : Mundo) (fuel : nat) (skip limit : Z)
        (s s' : Estado) (r : SearchResponse) :
  0 <= skip -> 0 <= limit ->
  listar_contratos w fuel skip limit s = Some (Retorno r, s') ->
  exists h stats ms resto,
    historico s' =
      EvQuery h (replicate 1024 zero) (skip + limit) (Ok ms)
        :: EvStats h (Ok stats) :: resto /\
    total r = default 0 (stats !! "total_vector_count") /\
    resultados r =
      map contrato_de (take (Z.to_nat limit) (drop (Z.to_nat skip) ms)) /\
    Z.of_nat (length (resultados r)) <= limit /\
    (limit = 0 -> resultados r = []) /\
    map score (resultados r)
      = map m_score (take (Z.to_nat limit) (drop (Z.to_nat skip) ms)) /\
    map arquivo (resultados r)
      = map (fun m => default "" (m_metadata m !! "arquivo"))
            (take (Z.to_nat limit) (drop (Z.to_nat skip) ms)) /\
    map texto (resultados r)
      = map (fun m => default "" (m_metadata m !! "texto"))
            (take (Z.to_nat limit) (drop (Z.to_nat skip) ms)).
Proof.
  intros Hs Hl H.
  apply listar_contratos_retorno in H as (s1 & Hc).
  apply corpo_listar_contratos_ok in Hc
    as (h & stats & ms & _ & Hh & _ & Ht & Hr).
  assert (Hr' : resultados r =
                map contrato_de
                    (take (Z.to_nat limit) (drop (Z.to_nat skip) ms))).
  { rewrite Hr. destruct ms as [| m ms'].
    - by rewrite drop_nil, take_nil.
    - by rewrite py_slice_janela. }
  exists h, stats, ms, (historico s1).
  split; [exact Hh |]. split; [exact Ht |]. split; [exact Hr' |].
  split; [rewrite Hr', length_map, length_take; lia |].
  split; [intros ->; rewrite Hr'; reflexivity |].
  destruct (campos_dos_contratos
              (take (Z.to_nat limit) (drop (Z.to_nat skip) ms)))
    as (Ha & Hx).
  rewrite Hr', scores_dos_contratos. repeat split; assumption.
Qed.

Lemma listar_contratos_retorna_witness :
  exists r s',
    listar_contratos mundo_estavel 1 1 2 estado_inicial
      = Some (Retorno r, s') /\
    resultados r
      = map contrato_de (take 2 (drop 1 acervo)) /\
    Z.of_nat (length (resultados r)) <= 2 /\
    map arquivo (resultados r) = [""; "a.pdf"] /\
    map texto (resultados r) = ["segundo"; ""].
Proof.
  destruct (listar_contratos mundo_estavel 1 1 2 estado_inicial)
    as [[[r | c d] s'] |] eqn:E;
    try (vm_compute in E; discriminate E).
  exists r, s'. split; [reflexivity |].
  destruct (listar_contratos_retorna mundo_estavel 1 1 2 estado_inicial
              s' r ltac:(lia) ltac:(lia) E)
    as (h & st & ms & resto & _ & _ & _ & Hlen & _).
  split; [vm_compute in E; injection E as <- _; reflexivity |].
  split; [exact Hlen |].
  vm_compute in E. injection E as <- _. split; reflexivity.
Defined.

#[local] Set Warnings "-clear-no-such-hyp".

(** The names the loop of [listar_arquivos] has collected: the ones the
    set held before, and the non-empty names stored under ["arquivo"] in
    the matches. *)
Lemma elem_of_juntar_arquivos (ms : list Match) (acc : gset string)
      (f : string) :
  f ∈ foldl juntar_arquivo acc ms <->
  f ∈ acc \/
  (f <> "" /\ exists m, m ∈ ms /\ m_metadata m !! "arquivo" = Some f).
Proof.
  revert acc. induction ms as [| m ms IH]; intros acc; cbn.
  - setoid_rewrite elem_of_nil. naive_solver.
  - rewrite IH. setoid_rewrite elem_of_cons. unfold juntar_arquivo.
    destruct (m_metadata m !! "arquivo") as [a |] eqn:Ha;
      [destruct (String.eqb a "") eqn:Ea;
         [apply String.eqb_eq in Ea | apply String.eqb_neq in Ea] |];
      rewrite ?elem_of_union, ?elem_of_singleton; naive_solver.
Qed.

Lemma elem_of_arquivos_unicos (ms : list Match) (f : string) :
  f ∈ elements (arquivos_unicos ms) <->
  f <> "" /\ exists m, m ∈ ms /\ m_metadata m !! "arquivo" = Some f.
Proof.
  rewrite elem_of_elements. unfold arquivos_unicos.
  rewrite elem_of_juntar_arquivos. split.
  - intros [H | H]; [| assumption]. by apply not_elem_of_empty in H.
  - auto.
Qed.

(** C8.  An enumeration of the file names that returns made, as its last
    two calls, a statistics request and a query with the zero vector for
    [min(total, 1000)] neighbours, [total] being the vector count of that
    statistics answer; the list it returns has no repetition, and each of
    its names is stored under ["arquivo"] in one of the matches of that
    query. *)
Theorem listar_arquivos_retorna (w : Mundo) (fuel : nat) (s s' : Estado)
        (r : list string) :
  listar_arquivos w fuel s = Some (Retorno r, s') ->
  exists h stats ms resto,
    historico s' =
      EvQuery h (replicate 1024 zero)
              (Z.min (default 0 (stats !! "total_vector_count")) 1000)
              (Ok ms)
        :: EvStats h (Ok stats) :: resto /\
    NoDup r /\
    forall f, f ∈ r ->
              exists m, m ∈ ms /\ m_metadata m !! "arquivo" = Some f.
Proof.
  intros H.
  apply listar_arquivos_retorno in H as (s1 & Hc).
  apply corpo_listar_arquivos_ok in Hc as (h & stats & ms & _ & Hh & ->).
  exists h, stats, ms, (historico s1).
  split; [exact Hh |]. split; [apply NoDup_elements |].
  intros f Hf. apply elem_of_arquivos_unicos in Hf as (_ & Hm). exact Hm.
Qed.

Lemma listar_arquivos_retorna_witness :
  exists r s',
    listar_arquivos mundo_estavel 1 estado_inicial = Some (Retorno r, s') /\
    contar eh_query (historico s') = 1%nat /\
    NoDup r.
Proof.
  destruct (listar_arquivos mundo_estavel 1 estado_inicial)
    as [[[r | c d] s'] |] eqn:E;
    try (vm_compute in E; discriminate E).
  exists r, s'. split; [reflexivity |].
  destruct (listar_arquivos_retorna mundo_estavel 1 estado_inicial s' r E)
    as (h & st & ms & resto & _ & Hnd & _).
  split; [| exact Hnd].
  vm_compute in E. injection E as _ <-. reflexivity.
Defined.

(** C9.  The list an enumeration of the file names returns holds exactly
    the non-empty names stored under ["arquivo"] in the matches of its
    last query: a match without that field, or with the empty string in
    it, contributes nothing, and the empty string is never in the list. *)
Theorem listar_arquivos_sem_vazio (w : Mundo) (fuel : nat) (s s' : Estado)
        (r : list string) :
  listar_arquivos w fuel s = Some (Retorno r, s') ->
  ("" ∉ r) /\
  exists h v top_k ms resto,
    historico s' = EvQuery h v top_k (Ok ms) :: resto /\
    forall f,
      f ∈ r <->
      f <> "" /\ exists m, m ∈ ms /\ m_metadata m !! "arquivo" = Some f.
Proof.
  intros H.
  apply listar_arquivos_retorno in H as (s1 & Hc).
  apply corpo_listar_arquivos_ok in Hc as (h & stats & ms & _ & Hh & ->).
  split.
  - intros Hf. apply elem_of_arquivos_unicos in Hf as (Hne & _).
    by apply Hne.
  - eexists h, _, _, ms, _. split; [exact Hh |].
    intros f. apply elem_of_arquivos_unicos.
Qed.

Lemma listar_arquivos_sem_vazio_witness :
  exists r s',
    listar_arquivos mundo_estavel 1 estado_inicial = Some (Retorno r, s') /\
    r = ["a.pdf"] /\
    ("" ∉ r).
Proof.
  destruct (listar_arquivos mundo_estavel 1 estado_inicial)
    as [[[r | c d] s'] |] eqn:E;
    try (vm_compute in E; discriminate E).
  exists r, s'. split; [reflexivity |].
  destruct (listar_arquivos_sem_vazio mundo_estavel 1 estado_inicial s' r E)
    as (Hv & _).
  split; [| exact Hv].
  vm_compute in E. injection E as <- _. reflexivity.
Defined.

(** ** The endpoints: the error that is reported *)

(** C10.  Once an endpoint is past its connection check, if its [try]
    block raises [e], the reconnection succeeds, and the replay itself ends
    in an exception, whatever its status and detail, then the endpoint
    raises a 500 whose detail is its own prefix followed by the text of
    [e]: the replay's exception is dropped.  For the search this is the
    case of a non-empty query. *)
Theorem retry_falho_relata_o_primeiro_erro (w : Mundo) (fuel : nat)
        (skip limit : Z) (q : string) (s s1 : Estado) :
  sem_conexao w s = (false, s1) ->
  q <> "" ->
  (forall e s2 s3 st d s4,
      corpo_listar_contratos w skip limit s1 = (Raise e, s2) ->
      conectar_pinecone w s2 = (true, s3) ->
      listar_contratos w fuel skip limit s3
        = Some (HTTPException st d, s4) ->
      listar_contratos w (S fuel) skip limit s
        = Some (HTTPException 500 ("Erro ao listar contratos: " +:+ e), s4))
  /\
  (forall e s2 s3 st d s4,
      corpo_buscar_contratos w q limit s1 = (Raise e, s2) ->
      conectar_pinecone w s2 = (true, s3) ->
      buscar_contratos w fuel q limit s3 = Some (HTTPException st d, s4) ->
      buscar_contratos w (S fuel) q limit s
        = Some (HTTPException 500 ("Erro ao realizar a busca: " +:+ e), s4))
  /\
  (forall e s2 s3 st d s4,
      corpo_listar_arquivos w s1 = (Raise e, s2) ->
      conectar_pinecone w s2 = (true, s3) ->
      listar_arquivos w fuel s3 = Some (HTTPException st d, s4) ->
      listar_arquivos w (S fuel) s
        = Some (HTTPException 500 ("Erro ao listar arquivos: " +:+ e), s4)).
Proof.
  intros Hs Hq. apply String.eqb_neq in Hq.
  repeat split; intros e s2 s3 st d s4 Hc Hr Hrec;
    cbn [listar_contratos buscar_contratos listar_arquivos];
    rewrite ?Hq, Hs, Hc, Hr, Hrec; reflexivity.
Qed.

(** Replace the variables of [E : t = (a, b)], or of
    [E : t = Some (a, b)], by the values [t] evaluates to. *)
Ltac fixar E :=
  let E' := fresh in
  pose proof E as E'; vm_compute in E';
  first [ injection E' as <- <- | discriminate E' ].

Ltac estado_de E :=
  match type of E with
  | _ = (_, ?s) => s
  | _ = Some (_, ?s) => s
  end.

Lemma retry_falho_relata_o_primeiro_erro_witness :
  (exists s3 s4,
      listar_contratos mundo_em_queda 1 0 10 s3
        = Some (HTTPException 500
                  "Erro ao listar contratos: falha da nova tentativa", s4) /\
      listar_contratos mundo_em_queda 2 0 10 estado_inicial
        = Some (HTTPException 500
                  "Erro ao listar contratos: primeira falha", s4)) /\
  (exists s3 s4,
      buscar_contratos mundo_em_queda 1 "aluguel" 10 s3
        = Some (HTTPException 500
                  "Erro ao realizar a busca: falha da nova tentativa", s4) /\
      buscar_contratos mundo_em_queda 2 "aluguel" 10 estado_inicial
        = Some (HTTPException 500
                  "Erro ao realizar a busca: primeira falha", s4)) /\
  (exists s3 s4,
      listar_arquivos mundo_em_queda 1 s3
        = Some (HTTPException 500
                  "Erro ao listar arquivos: falha da nova tentativa", s4) /\
      listar_arquivos mundo_em_queda 2 estado_inicial
        = Some (HTTPException 500
                  "Erro ao listar arquivos: primeira falha", s4)).
Proof.
  destruct (sem_conexao mundo_em_queda estado_inicial) as [b s1] eqn:E1.
  fixar E1.
  let s1 := estado_de E1 in
  destruct (retry_falho_relata_o_primeiro_erro mundo_em_queda 1 0 10
              "aluguel" estado_inicial s1 E1 ltac:(discriminate))
    as (Hl & Hb & Ha).
  split; [| split].
  - let s1 := estado_de E1 in
    destruct (corpo_listar_contratos mundo_em_queda 0 10 s1)
      as [r2 s2] eqn:E2.
    fixar E2.
    let s2 := estado_de E2 in
    destruct (conectar_pinecone mundo_em_queda s2) as [b3 s3] eqn:E3.
    fixar E3.
    let s3 := estado_de E3 in
    destruct (listar_contratos mundo_em_queda 1 0 10 s3)
      as [[r4 s4] |] eqn:E4; [| vm_compute in E4; discriminate E4].
    fixar E4.
    eexists _, _. split; [exact E4 |].
    exact (Hl _ _ _ _ _ _ E2 E3 E4).
  - let s1 := estado_de E1 in
    destruct (corpo_buscar_contratos mundo_em_queda "aluguel" 10 s1)
      as [r2 s2] eqn:E2.
    fixar E2.
    let s2 := estado_de E2 in
    destruct (conectar_pinecone mundo_em_queda s2) as [b3 s3] eqn:E3.
    fixar E3.
    let s3 := estado_de E3 in
    destruct (buscar_contratos mundo_em_queda 1 "aluguel" 10 s3)
      as [[r4 s4] |] eqn:E4; [| vm_compute in E4; discriminate E4].
    fixar E4.
    eexists _, _. split; [exact E4 |].
    exact (Hb _ _ _ _ _ _ E2 E3 E4).
  - let s1 := estado_de E1 in
    destruct (corpo_listar_arquivos mundo_em_queda s1) as [r2 s2] eqn:E2.
    fixar E2.
    let s2 := estado_de E2 in
    destruct (conectar_pinecone mundo_em_queda s2) as [b3 s3] eqn:E3.
    fixar E3.
    let s3 := estado_de E3 in
    destruct (listar_arquivos mundo_em_queda 1 s3)
      as [[r4 s4] |] eqn:E4; [| vm_compute in E4; discriminate E4].
    fixar E4.
    eexists _, _. split; [exact E4 |].
    exact (Ha _ _ _ _ _ _ E2 E3 E4).
Defined.

(** * Further properties of the code *)

(** ** [conectar_pinecone] *)

Lemma ultimo_index_app (a b : list Evento) :
  ultimo_index (a ++ b)
  = match ultimo_index a with
    | Some h => Some h
    | None => ultimo_index b
    end.
Proof.
  induction a as [| ev a IH]; [reflexivity |].
  destruct ev as [| c [h |] | | | |]; cbn; try assumption. reflexivity.
Qed.

(** What one attempt does to [index] and which calls it makes. *)
Lemma tentar_conexao_index (w : Mundo) (s s1 : Estado)
      (r : Resultado unit) :
  tentar_conexao w s = (r, s1) ->
  exists novos,
    historico s1 = novos ++ historico s /\
    index s1 = from_option Some (index s) (ultimo_index novos) /\
    contar eh_sleep novos = 0%nat /\
    (forall n, EvSleep n ∉ novos) /\
    (is_Some (pc s) -> is_Some (pc s1)).
Proof.
  intros H.
  assert (Hfim : forall novos : list Evento,
             Forall (fun ev => eh_sleep ev = false) novos ->
             forall n, EvSleep n ∉ novos).
  { intros novos Hf n Hn. rewrite Forall_forall in Hf.
    apply Hf in Hn. discriminate Hn. }
  destruct (tentar_conexao_casos w s)
    as [(e & _ & E) | [(c & e & E) | [(c & h & e & _ & E)
       | (c & h & st & E)]]];
    rewrite E in H; inversion H; subst; clear H E.
  - exists [EvPinecone (Raise e)].
    repeat split; try (by eauto); apply Hfim; repeat constructor.
  - exists [EvIndex c (Raise e); EvPinecone (Ok c)].
    repeat split; try (by eauto); apply Hfim; repeat constructor.
  - exists [EvStats h (Raise e); EvIndex c (Ok h); EvPinecone (Ok c)].
    repeat split; try (by eauto); apply Hfim; repeat constructor.
  - exists [EvStats h (Ok st); EvIndex c (Ok h); EvPinecone (Ok c)].
    repeat split; try (by eauto); apply Hfim; repeat constructor.
Qed.

(** X1.  When [conectar_pinecone] returns [True], the handle in [index]
    has just been verified: the last call made is the statistics probe on
    that very handle and it answered; the client is set and the failure
    counter is back at zero. *)
Theorem conectar_pinecone_ok_verificado (w : Mundo) (s s' : Estado) :
  conectar_pinecone w s = (true, s') ->
  exists h st resto,
    index s' = Some h /\
    historico s' = EvStats h (Ok st) :: resto /\
    connection_attempts s' = 0%nat.
Proof. apply conectar_pinecone_sucesso. Qed.

Lemma conectar_pinecone_ok_verificado_witness :
  exists s',
    conectar_pinecone mundo_estavel estado_inicial = (true, s') /\
    index s' = Some 7%nat /\
    historico s'
      = [EvStats 7%nat (Ok estatisticas); EvIndex 1%nat (Ok 7%nat);
         EvPinecone (Ok 1%nat)] /\
    connection_attempts s' = 0%nat.
Proof.
  destruct (conectar_pinecone mundo_estavel estado_inicial) as [b s'] eqn:E.
  pose proof E as E'. vm_compute in E'. injection E' as <- <-.
  eexists. split; [reflexivity |].
  destruct (conectar_pinecone_ok_verificado _ _ _ E)
    as (h & st & resto & Hi & Hh & Hc).
  repeat split; first [exact Hc | reflexivity].
Defined.

(** X2.  Whatever the collaborators answer and whatever the state is, one
    call of [conectar_pinecone] makes at least one attempt and at most
    [max(1, MAX_RECONNECT_ATTEMPTS - connection_attempts)], so never more
    than three; it pauses exactly once between two consecutive attempts,
    each time for two seconds; and it calls nothing but the two
    constructors, the statistics probe and [time.sleep]: no query, no
    embedding request. *)
Theorem conectar_pinecone_limites (w : Mundo) (s : Estado) :
  exists novos,
    historico (conectar_pinecone w s).2 = novos ++ historico s /\
    (1 <= contar eh_tentativa novos
       <= Nat.max 1 (MAX_RECONNECT_ATTEMPTS - connection_attempts s))%nat /\
    (contar eh_tentativa novos <= MAX_RECONNECT_ATTEMPTS)%nat /\
    S (contar eh_sleep novos) = contar eh_tentativa novos /\
    pausas_de_2 novos /\
    contar eh_query novos = 0%nat /\
    contar eh_embedding novos = 0%nat.
Proof.
  cut (exists novos,
          historico (conectar_pinecone w s).2 = novos ++ historico s /\
          (1 <= contar eh_tentativa novos
             <= Nat.max 1 (MAX_RECONNECT_ATTEMPTS - connection_attempts s))%nat
          /\ S (contar eh_sleep novos) = contar eh_tentativa novos /\
          pausas_de_2 novos /\
          Forall (fun ev => de_conexao ev = true) novos).
  { intros (novos & Hh & Hn & Hs & Hp & Hf).
    exists novos. apply de_conexao_contar in Hf as (Hq & He).
    unfold MAX_RECONNECT_ATTEMPTS in *. repeat split; try assumption; lia. }
  apply (conectar_pinecone_rec w
           (fun s r => exists novos,
                historico r.2 = novos ++ historico s /\
                (1 <= contar eh_tentativa novos
                   <= Nat.max 1 (MAX_RECONNECT_ATTEMPTS
                                 - connection_attempts s))%nat /\
                S (contar eh_sleep novos) = contar eh_tentativa novos /\
                pausas_de_2 novos /\
                Forall (fun ev => de_conexao ev = true) novos)).
  - intros s0 s1 u Ht.
    destruct (tentar_conexao_historico _ _ _ _ Ht)
      as (n & Hn & Hf & Ht1 & Hs1 & _).
    destruct (tentar_conexao_index _ _ _ _ Ht) as (n' & Hn' & _ & _ & Hp & _).
    rewrite Hn in Hn'. apply app_inv_tail in Hn'. subst n'.
    exists n. cbn. repeat split; try assumption; try lia.
    intros k Hk. by apply Hp in Hk.
  - intros s0 s1 e Ht Hlt s2 (n2 & Hh & Hn & Hs & Hp & Hf).
    destruct (tentar_conexao_historico _ _ _ _ Ht)
      as (n & Hn1 & Hf1 & Ht1 & Hs1 & _ & Hat).
    destruct (tentar_conexao_index _ _ _ _ Ht) as (n' & Hn' & _ & _ & Hp1 & _).
    rewrite Hn1 in Hn'. apply app_inv_tail in Hn'. subst n'.
    specialize (Hat e eq_refl).
    exists (n2 ++ EvSleep 2 :: n).
    subst s2. cbn in Hh, Hn. rewrite Hat in *.
    unfold MAX_RECONNECT_ATTEMPTS in *.
    split; [rewrite Hh, Hn1, <- app_assoc; reflexivity |].
    rewrite !contar_app.
    change (EvSleep 2 :: n) with ([EvSleep 2] ++ n).
    rewrite !contar_app. cbn.
    repeat split; try lia.
    + intros k Hk. apply elem_of_app in Hk as [Hk | Hk]; [by apply Hp |].
      apply elem_of_cons in Hk as [Hk | Hk]; [by inversion Hk |].
      by apply Hp1 in Hk.
    + apply Forall_app. split; [assumption |].
      constructor; [reflexivity | assumption].
  - intros s0 s1 e Ht Hge.
    destruct (tentar_conexao_historico _ _ _ _ Ht)
      as (n & Hn1 & Hf1 & Ht1 & Hs1 & _).
    destruct (tentar_conexao_index _ _ _ _ Ht) as (n' & Hn' & _ & _ & Hp1 & _).
    rewrite Hn1 in Hn'. apply app_inv_tail in Hn'. subst n'.
    exists n. cbn. repeat split; try assumption; try lia.
    intros k Hk. by apply Hp1 in Hk.
Qed.

(** X3.  When [conectar_pinecone] returns [False], every attempt it made
    failed, so it made exactly
    [max(1, MAX_RECONNECT_ATTEMPTS - connection_attempts)] of them, three
    when the counter was at zero, and it leaves the counter at
    [max(connection_attempts + 1, MAX_RECONNECT_ATTEMPTS)]: at three or
    more, whatever the collaborators answered. *)
Theorem conectar_pinecone_falha_contagem (w : Mundo) (s s' : Estado) :
  conectar_pinecone w s = (false, s') ->
  exists novos,
    historico s' = novos ++ historico s /\
    contar eh_tentativa novos
      = Nat.max 1 (MAX_RECONNECT_ATTEMPTS - connection_attempts s) /\
    connection_attempts s'
      = Nat.max (S (connection_attempts s)) MAX_RECONNECT_ATTEMPTS /\
    (connection_attempts s = 0%nat -> contar eh_tentativa novos = 3%nat).
Proof.
  cut (forall s',
          conectar_pinecone w s = (false, s') ->
          exists novos,
            historico s' = novos ++ historico s /\
            contar eh_tentativa novos
              = Nat.max 1 (MAX_RECONNECT_ATTEMPTS - connection_attempts s) /\
            connection_attempts s'
              = Nat.max (S (connection_attempts s)) MAX_RECONNECT_ATTEMPTS).
  { intros H E. destruct (H s' E) as (novos & Hh & Hn & Hc).
    exists novos. repeat split; try assumption.
    intros H0. rewrite Hn, H0. reflexivity. }
  apply (conectar_pinecone_rec w
           (fun s r => forall s',
                r = (false, s') ->
                exists novos,
                  historico s' = novos ++ historico s /\
                  contar eh_tentativa novos
                    = Nat.max 1 (MAX_RECONNECT_ATTEMPTS
                                 - connection_attempts s) /\
                  connection_attempts s'
                    = Nat.max (S (connection_attempts s))
                              MAX_RECONNECT_ATTEMPTS)).
  - intros s0 s1 u _ s2 E. discriminate E.
  - intros s0 s1 e Ht Hlt s2 IH s3 E.
    destruct (IH s3 E) as (n2 & Hh & Hn & Hc).
    destruct (tentar_conexao_historico _ _ _ _ Ht)
      as (n & Hn1 & _ & Ht1 & _ & _ & Hat).
    specialize (Hat e eq_refl).
    exists (n2 ++ EvSleep 2 :: n).
    subst s2. cbn in Hh, Hn, Hc. rewrite Hat in *.
    unfold MAX_RECONNECT_ATTEMPTS in *.
    split; [rewrite Hh, Hn1, <- app_assoc; reflexivity |].
    rewrite !contar_app.
    change (EvSleep 2 :: n) with ([EvSleep 2] ++ n).
    rewrite !contar_app. cbn. lia.
  - intros s0 s1 e Ht Hge s2 E. inversion E; subst; clear E.
    destruct (tentar_conexao_historico _ _ _ _ Ht)
      as (n & Hn1 & _ & Ht1 & _ & _ & Hat).
    specialize (Hat e eq_refl).
    exists n. cbn. rewrite Hat in *.
    unfold MAX_RECONNECT_ATTEMPTS in *.
    repeat split; [assumption | lia | lia].
Qed.

Lemma conectar_pinecone_falha_contagem_witness :
  exists s' novos,
    conectar_pinecone mundo_sem_chave estado_inicial = (false, s') /\
    historico s' = novos ++ historico estado_inicial /\
    contar eh_tentativa novos = 3%nat /\
    connection_attempts s' = 3%nat.
Proof.
  destruct (conectar_pinecone mundo_sem_chave estado_inicial)
    as [b s'] eqn:E.
  pose proof E as E'. vm_compute in E'. injection E' as <- <-.
  destruct (conectar_pinecone_falha_contagem _ _ _ E)
    as (novos & Hh & _ & Hc & H3).
  eexists _, novos. split; [reflexivity |].
  split; [exact Hh |]. split; [apply H3; reflexivity | exact Hc].
Defined.

(** Where [index] points after a call of [conectar_pinecone]. *)
Lemma conectar_pinecone_index_lei (w : Mundo) (s : Estado) :
  exists novos,
    historico (conectar_pinecone w s).2 = novos ++ historico s /\
    index (conectar_pinecone w s).2
      = from_option Some (index s) (ultimo_index novos).
Proof.
  apply (conectar_pinecone_rec w
           (fun s r => exists novos,
                historico r.2 = novos ++ historico s /\
                index r.2 = from_option Some (index s) (ultimo_index novos))).
  - intros s0 s1 u Ht.
    destruct (tentar_conexao_index _ _ _ _ Ht) as (n & Hn & Hi & _).
    exists n. split; assumption.
  - intros s0 s1 e Ht _ s2 (n2 & Hh & Hi).
    destruct (tentar_conexao_index _ _ _ _ Ht) as (n & Hn & Hi1 & _).
    exists (n2 ++ EvSleep 2 :: n). subst s2. cbn in Hh, Hi.
    split; [rewrite Hh, Hn, <- app_assoc; reflexivity |].
    rewrite Hi, Hi1, ultimo_index_app. cbn.
    destruct (ultimo_index n2); reflexivity.
  - intros s0 s1 e Ht _.
    destruct (tentar_conexao_index _ _ _ _ Ht) as (n & Hn & Hi & _).
    exists n. split; assumption.
Qed.

Lemma conectar_pinecone_mantem_index (w : Mundo) (s : Estado) :
  is_Some (index s) -> is_Some (index (conectar_pinecone w s).2).
Proof.
  destruct (conectar_pinecone_index_lei w s) as (novos & _ & Hi).
  rewrite Hi. destruct (ultimo_index novos); cbn; eauto.
Qed.

(** X4.  [conectar_pinecone] never clears [index].  After a call, [index]
    holds the handle returned by the last [pc.Index] call of that call
    that returned, whether or not the probe that followed answered and
    whether or not [conectar_pinecone] succeeded; when no [pc.Index] call
    returned, [index] is what it was. *)
Theorem conectar_pinecone_index (w : Mundo) (s : Estado) :
  exists novos,
    historico (conectar_pinecone w s).2 = novos ++ historico s /\
    index (conectar_pinecone w s).2
      = from_option Some (index s) (ultimo_index novos).
Proof. apply conectar_pinecone_index_lei. Qed.

(** ** The endpoints *)

(** The [try] blocks only add to the history: they leave the globals
    alone. *)
Lemma corpo_listar_contratos_globais (w : Mundo) (skip limit : Z)
      (s1 s2 : Estado) (r : Resultado SearchResponse) :
  corpo_listar_contratos w skip limit s1 = (r, s2) -> index s2 = index s1.
Proof.
  unfold corpo_listar_contratos, bind, ret, index_describe_index_stats,
    index_query. cbn. repeat passo_corpo;
    intros H; inversion H; subst; cbn; congruence.
Qed.

Lemma corpo_buscar_contratos_globais (w : Mundo) (q : string) (limit : Z)
      (s1 s2 : Estado) (r : Resultado SearchResponse) :
  corpo_buscar_contratos w q limit s1 = (r, s2) -> index s2 = index s1.
Proof.
  unfold corpo_buscar_contratos, bind, ret, gerar_embedding, index_query.
  cbn. repeat passo_corpo;
    intros H; inversion H; subst; cbn; congruence.
Qed.

Lemma corpo_listar_arquivos_globais (w : Mundo) (s1 s2 : Estado)
      (r : Resultado (list string)) :
  corpo_listar_arquivos w s1 = (r, s2) -> index s2 = index s1.
Proof.
  unfold corpo_listar_arquivos, bind, ret, index_describe_index_stats,
    index_query. cbn. repeat passo_corpo;
    intros H; inversion H; subst; cbn; congruence.
Qed.

Lemma sem_conexao_casos (w : Mundo) (s s1 : Estado) (b : bool) :
  sem_conexao w s = (b, s1) ->
  (b = false /\ is_Some (index s1)) \/
  (b = true /\ index s = None /\ conectar_pinecone w s = (false, s1)).
Proof.
  unfold sem_conexao. destruct (index s) as [h |] eqn:Hi.
  - intros H. inversion H; subst. left. rewrite Hi. eauto.
  - destruct (conectar_pinecone w s) as [[|] s2] eqn:Hc; cbn;
      intros H; inversion H; subst.
    + left. split; [reflexivity |].
      apply conectar_pinecone_sucesso in Hc as (h & _ & _ & Hh & _).
      rewrite Hh. eauto.
    + right. auto.
Qed.

(** Case analysis along one level of an endpoint that ended in an
    exception. *)
Ltac excecao_do_endpoint :=
  match goal with
  | H : context [sem_conexao ?w ?s] |- _ =>
      let Hs := fresh "Hs" in
      destruct (sem_conexao w s) as [[|] ?s1] eqn:Hs;
      [ apply sem_conexao_casos in Hs as [(Hs & _) | (_ & Hs & _)];
        [discriminate Hs |];
        inversion H; subst; left; auto
      | right ]
  end;
  match goal with
  | H : match ?corpo with _ => _ end = Some _ |- _ =>
      destruct corpo as [[?r1 | ?e] ?s2]; [discriminate H |]
  end;
  match goal with
  | H : context [conectar_pinecone ?w ?s] |- _ =>
      destruct (conectar_pinecone w s) as [[|] ?s3];
      [| inversion H; subst; eauto ]
  end;
  match goal with
  | H : match ?rec with _ => _ end = Some _ |- _ =>
      destruct rec as [[[?r4 | ? ?] ?s4] |]; try discriminate H;
      inversion H; subst; eauto
  end.

(** X5.  The exceptions an endpoint can raise.  A listing and an
    enumeration of the file names raise nothing but a 503 with the fixed
    detail, and then [index] was unset on entry, or a 500 whose detail is
    the endpoint's own prefix followed by an error text.  A search can in
    addition raise the 400 of the empty query, and raises nothing else
    when the query is empty.  In particular no endpoint answers 503 once
    [index] is set. *)
Theorem endpoints_excecoes (w : Mundo) (fuel : nat) (skip limit : Z)
        (q : string) (s s' : Estado) (st : Z) (d : string) :
  (listar_contratos w fuel skip limit s = Some (HTTPException st d, s') ->
   (st = 503 /\ d = INDISPONIVEL /\ index s = None) \/
   (st = 500 /\ exists e, d = "Erro ao listar contratos: " +:+ e)) /\
  (buscar_contratos w fuel q limit s = Some (HTTPException st d, s') ->
   (q = "" /\ st = 400 /\ d = "A consulta não pode estar vazia" /\ s' = s)
   \/
   (q <> "" /\
    ((st = 503 /\ d = INDISPONIVEL /\ index s = None) \/
     (st = 500 /\ exists e, d = "Erro ao realizar a busca: " +:+ e)))) /\
  (listar_arquivos w fuel s = Some (HTTPException st d, s') ->
   (st = 503 /\ d = INDISPONIVEL /\ index s = None) \/
   (st = 500 /\ exists e, d = "Erro ao listar arquivos: " +:+ e)).
Proof.
  destruct fuel as [| fuel]; [repeat split; discriminate |].
  split; [| split]; intros H.
  - cbn [listar_contratos] in H. excecao_do_endpoint.
  - cbn [buscar_contratos] in H.
    destruct (String.eqb q "") eqn:Eq.
    + apply String.eqb_eq in Eq. inversion H; subst. left. auto.
    + apply String.eqb_neq in Eq. right. split; [assumption |].
      excecao_do_endpoint.
  - cbn [listar_arquivos] in H. excecao_do_endpoint.
Qed.

Lemma endpoints_excecoes_witness :
  exists s',
    listar_contratos mundo_sem_chave 1 0 10 estado_inicial
      = Some (HTTPException 503 INDISPONIVEL, s') /\
    ((503 = 503 /\ INDISPONIVEL = INDISPONIVEL /\
      index estado_inicial = None) \/
     (503 = 500 /\
      exists e, INDISPONIVEL = "Erro ao listar contratos: " +:+ e)).
Proof.
  destruct (listar_contratos mundo_sem_chave 1 0 10 estado_inicial)
    as [[r s'] |] eqn:E; [| vm_compute in E; discriminate E].
  pose proof E as E'. vm_compute in E'. injection E' as <- <-.
  eexists. split; [reflexivity |].
  exact (proj1 (endpoints_excecoes mundo_sem_chave 1 0 10 "aluguel"
                  estado_inicial _ 503 INDISPONIVEL) E).
Defined.

(** Once [index] is set, no endpoint unsets it. *)
Ltac index_apos_endpoint IH :=
  match goal with
  | Hi : is_Some (index ?s), H : context [sem_conexao ?w ?s] |- _ =>
      let Hs := fresh "Hs" in
      destruct (sem_conexao w s) as [[|] ?s1] eqn:Hs;
      [ apply sem_conexao_casos in Hs as [(Hs & _) | (_ & Hs & _)];
        [discriminate Hs | rewrite Hs in Hi; by destruct Hi]
      | apply sem_conexao_casos in Hs as [(_ & Hs) | (Hs & _)];
        [| discriminate Hs] ]
  end;
  match goal with
  | H : match ?corpo with _ => _ end = Some _ |- _ =>
      let Hc := fresh "Hc" in
      destruct corpo as [[?r1 | ?e] ?s2] eqn:Hc;
      first [ apply corpo_listar_contratos_globais in Hc
            | apply corpo_buscar_contratos_globais in Hc
            | apply corpo_listar_arquivos_globais in Hc ];
      [ inversion H; subst; rewrite Hc; assumption |]
  end;
  match goal with
  | H : context [conectar_pinecone ?w ?s], Hc : index ?s = _ |- _ =>
      let Hm := fresh "Hm" in
      assert (Hm : is_Some (index (conectar_pinecone w s).2))
        by (apply conectar_pinecone_mantem_index; rewrite Hc; assumption);
      destruct (conectar_pinecone w s) as [[|] ?s3]; cbn in Hm;
      [| inversion H; subst; exact Hm ]
  end;
  match goal with
  | H : match ?rec with _ => _ end = Some _ |- _ =>
      let Hr := fresh "Hr" in
      destruct rec as [[[?r4 | ? ?] ?s4] |] eqn:Hr; try discriminate H;
      inversion H; subst; eapply IH; eassumption
  end.

Lemma listar_contratos_mantem_index (w : Mundo) (skip limit : Z)
      (fuel : nat) :
  forall s r s',
    is_Some (index s) ->
    listar_contratos w fuel skip limit s = Some (r, s') ->
    is_Some (index s').
Proof.
  induction fuel as [| fuel IH]; intros s r s' Hi H; [discriminate |].
  cbn [listar_contratos] in H. index_apos_endpoint IH.
Qed.

Lemma buscar_contratos_mantem_index (w : Mundo) (q : string) (limit : Z)
      (fuel : nat) :
  forall s r s',
    is_Some (index s) ->
    buscar_contratos w fuel q limit s = Some (r, s') ->
    is_Some (index s').
Proof.
  induction fuel as [| fuel IH]; intros s r s' Hi H; [discriminate |].
  cbn [buscar_contratos] in H.
  destruct (String.eqb q ""); [inversion H; subst; assumption |].
  index_apos_endpoint IH.
Qed.

Lemma listar_arquivos_mantem_index (w : Mundo) (fuel : nat) :
  forall s r s',
    is_Some (index s) ->
    listar_arquivos w fuel s = Some (r, s') ->
    is_Some (index s').
Proof.
  induction fuel as [| fuel IH]; intros s r s' Hi H; [discriminate |].
  cbn [listar_arquivos] in H. index_apos_endpoint IH.
Qed.

Lemma read_root_mantem_index (w : Mundo) (s : Estado) :
  is_Some (index s) -> is_Some (index (read_root w s).2).
Proof.
  intros Hi. unfold read_root, index_describe_index_stats.
  destruct (index s) as [h |] eqn:Eh; [| by destruct Hi].
  destruct (describe_index_stats w (historico s) h) as [st | e]; cbn.
  - rewrite Eh. eauto.
  - pose proof (conectar_pinecone_mantem_index w
                  (registrar (EvStats h (Raise e)) s)) as Hm.
    destruct (conectar_pinecone w (registrar (EvStats h (Raise e)) s))
      as [b s2]. cbn in *. apply Hm. rewrite Eh. eauto.
Qed.

(** X6.  Nothing in the module ever unsets [index]: when it is set,
    it is still set after [conectar_pinecone], after the health check and
    after each of the three endpoints, whatever they return or raise and
    whatever the collaborators answer. *)
Theorem index_permanece (w : Mundo) (fuel : nat) (skip limit : Z)
        (q : string) (s : Estado) :
  is_Some (index s) ->
  is_Some (index (conectar_pinecone w s).2) /\
  is_Some (index (read_root w s).2) /\
  (forall r s', listar_contratos w fuel skip limit s = Some (r, s') ->
                is_Some (index s')) /\
  (forall r s', buscar_contratos w fuel q limit s = Some (r, s') ->
                is_Some (index s')) /\
  (forall r s', listar_arquivos w fuel s = Some (r, s') ->
                is_Some (index s')).
Proof.
  intros Hi.
  split; [by apply conectar_pinecone_mantem_index |].
  split; [by apply read_root_mantem_index |].
  split; [| split]; intros r s' H.
  - eapply listar_contratos_mantem_index; eassumption.
  - eapply buscar_contratos_mantem_index; eassumption.
  - eapply listar_arquivos_mantem_index; eassumption.
Qed.

Lemma index_permanece_witness :
  index estado_conectado = Some 7%nat /\
  is_Some (index (conectar_pinecone mundo_sonda_falha estado_conectado).2) /\
  is_Some (index (read_root mundo_sonda_falha estado_conectado).2).
Proof.
  split; [vm_compute; reflexivity |].
  destruct (index_permanece mundo_sonda_falha 1 0 10 "aluguel"
              estado_conectado) as (Hc & Hr & _).
  - exists 7%nat. vm_compute. reflexivity.
  - split; assumption.
Defined.



(** X8.  A search that returns was given a non-empty query, and its last
    two calls are the embedding request for that very text and the vector
    query, on the handle in [index], with exactly the vector the provider
    returned and with [top_k = limit]. *)
Theorem buscar_contratos_consulta (w : Mundo) (fuel : nat) (q : string)
        (limit : Z) (s s' : Estado) (r : SearchResponse) :
  buscar_contratos w fuel q limit s = Some (Retorno r, s') ->
  q <> "" /\
  exists h v ms resto,
    historico s' = EvQuery h v limit (Ok ms) :: EvEmbedding q (Ok v) :: resto
    /\ index s' = Some h.
Proof.
  intros H. split.
  - destruct fuel as [| fuel]; [discriminate |].
    cbn [buscar_contratos] in H.
    destruct (String.eqb q "") eqn:Eq; [discriminate |].
    by apply String.eqb_neq.
  - apply buscar_contratos_retorno in H as (s1 & Hc).
    pose proof (corpo_buscar_contratos_globais _ _ _ _ _ _ Hc) as Hg.
    apply corpo_buscar_contratos_ok in Hc
      as (h & v & ms & Hi & _ & Hh & _).
    exists h, v, ms, (historico s1). split; [assumption | congruence].
Qed.

Lemma buscar_contratos_consulta_witness :
  exists r s',
    buscar_contratos mundo_estavel 1 "aluguel" 3 estado_inicial
      = Some (Retorno r, s') /\
    exists ms resto,
      historico s'
        = EvQuery 7%nat dummy_vector 3 (Ok ms)
            :: EvEmbedding "aluguel" (Ok dummy_vector) :: resto.
Proof.
  destruct (buscar_contratos mundo_estavel 1 "aluguel" 3 estado_inicial)
    as [[[r | c d] s'] |] eqn:E;
    try (vm_compute in E; discriminate E).
  exists r, s'. split; [reflexivity |].
  destruct (buscar_contratos_consulta _ _ _ _ _ _ _ E)
    as (_ & h & v & ms & resto & Hh & _).
  vm_compute in E. injection E as _ <-.
  eexists _, _. reflexivity.
Defined.

(** ** The health check *)

(** One row per [return] of [read_root] (lines 131, 142, 148 and 154). *)
Lemma read_root_casos (w : Mundo) (s : Estado) :
  (exists h st,
     index s = Some h /\
     describe_index_stats w (historico s) h = Ok st /\
     read_root w s =
       ({[ "status" := VStr "online";
           "message" := VStr "Contratus AI API está funcionando com Pinecone!";
           "pinecone_status" := VStr "conectado";
           "total_vetores" :=
             VInt (default 0 (st !! "total_vector_count")) ]},
        registrar (EvStats h (Ok st)) s)) \/
  (exists h e,
     index s = Some h /\
     describe_index_stats w (historico s) h = Raise e /\
     read_root w s =
       ({[ "status" := VStr "degradado";
           "message" :=
             VStr "API está online, mas com problemas de conexão ao Pinecone.";
           "error" := VStr e ]},
        (conectar_pinecone w (registrar (EvStats h (Raise e)) s)).2)) \/
  (index s = None /\
   conectar_pinecone w s = (true, (read_root w s).2) /\
   (read_root w s).1 =
     {[ "status" := VStr "online";
        "message" := VStr "Contratus AI API está funcionando com Pinecone!";
        "pinecone_status" := VStr "reconectado" ]}) \/
  (index s = None /\
   conectar_pinecone w s = (false, (read_root w s).2) /\
   (read_root w s).1 =
     {[ "status" := VStr "parcial";
        "message" := VStr "API está online, mas sem conexão com Pinecone.";
        "pinecone_status" := VStr "desconectado" ]}).
Proof.
  unfold read_root, index_describe_index_stats.
  destruct (index s) as [h |] eqn:Eh.
  - destruct (describe_index_stats w (historico s) h) as [st | e] eqn:Ed.
    + left. exists h, st. auto.
    + right; left. exists h, e.
      destruct (conectar_pinecone w (registrar (EvStats h (Raise e)) s)).
      auto.
  - right; right.
    destruct (conectar_pinecone w s) as [[|] s1]; [left | right]; auto.
Qed.

Ltac status_de H :=
  repeat (rewrite lookup_insert_eq in H
          || (rewrite lookup_insert_ne in H by discriminate)
          || rewrite lookup_singleton_eq in H
          || (rewrite lookup_singleton_ne in H by discriminate)
          || rewrite lookup_empty in H);
  try discriminate H.

(** X9.  The health check answers ["online"] only over a handle whose
    probe has just answered: [index] is then set and the last external
    call is a successful [describe_index_stats] on it.  When [index] was
    set on entry, the handle is unchanged and ["total_vetores"] is that
    answer's [total_vector_count], 0 if absent. *)
Theorem read_root_online (w : Mundo) (s s' : Estado) (r : gmap string Valor) :
  read_root w s = (r, s') ->
  r !! "status" = Some (VStr "online") ->
  exists h st resto,
    index s' = Some h /\
    historico s' = EvStats h (Ok st) :: resto /\
    (is_Some (index s) ->
       index s = Some h /\ resto = historico s /\
       r !! "total_vetores"
         = Some (VInt (default 0 (st !! "total_vector_count")))).
Proof.
  intros Hr Hon.
  destruct (read_root_casos w s)
    as [(h & st & Hi & Hd & Heq) | [(h & e & Hi & Hd & Heq)
        | [(Hi & Hc & Heq) | (Hi & Hc & Heq)]]];
    rewrite Hr in *; cbn in *.
  - inversion Heq; subst. exists h, st, (historico s).
    repeat split; try assumption.
  - inversion Heq; subst. status_de Hon.
  - apply conectar_pinecone_sucesso in Hc as (h & st & resto & H1 & H2 & _).
    exists h, st, resto. repeat split; try assumption;
      rewrite Hi in *; by destruct H.
  - subst r. status_de Hon.
Qed.

Lemma read_root_online_witness :
  exists h st resto,
    index (read_root mundo_estavel estado_conectado).2 = Some h /\
    historico (read_root mundo_estavel estado_conectado).2
      = EvStats h (Ok st) :: resto /\
    (is_Some (index estado_conectado) ->
       index estado_conectado = Some h /\
       resto = historico estado_conectado /\
       (read_root mundo_estavel estado_conectado).1 !! "total_vetores"
         = Some (VInt (default 0 (st !! "total_vector_count")))).
Proof.
  apply (read_root_online mundo_estavel estado_conectado).
  - apply surjective_pairing.
  - vm_compute. reflexivity.
Defined.

(** X10.  What the health check does and what its other answers mean.
    It makes neither a vector query nor an embedding request.  It answers
    ["parcial"] only when [index] was unset on entry and
    [conectar_pinecone] then failed.  It answers ["degradado"] only when
    [index] was set and its probe raised, and ["error"] is then the text
    of that exception, whether the reconnection it runs afterwards
    succeeds or not. *)
Theorem read_root_respostas (w : Mundo) (s : Estado) :
  (exists novos,
     historico (read_root w s).2 = novos ++ historico s /\
     contar eh_query novos = 0%nat /\
     contar eh_embedding novos = 0%nat) /\
  ((read_root w s).1 !! "status" = Some (VStr "parcial") ->
     index s = None /\
     conectar_pinecone w s = (false, (read_root w s).2)) /\
  ((read_root w s).1 !! "status" = Some (VStr "degradado") ->
     exists h e,
       index s = Some h /\
       describe_index_stats w (historico s) h = Raise e /\
       (read_root w s).1 !! "error" = Some (VStr e) /\
       (read_root w s).2
         = (conectar_pinecone w (registrar (EvStats h (Raise e)) s)).2).
Proof.
  destruct (read_root_casos w s)
    as [(h & st & Hi & Hd & Heq) | [(h & e & Hi & Hd & Heq)
        | [(Hi & Hc & Heq) | (Hi & Hc & Heq)]]].
  - rewrite Heq. cbn. split; [| split].
    + exists [EvStats h (Ok st)]. auto.
    + intros H. status_de H.
    + intros H. status_de H.
  - rewrite Heq. cbn. split; [| split].
    + destruct (conectar_pinecone_historico w
                  (registrar (EvStats h (Raise e)) s)) as (novos & Hn & Hf).
      exists (novos ++ [EvStats h (Raise e)]).
      rewrite Hn. cbn. rewrite <- app_assoc. split; [reflexivity |].
      apply de_conexao_contar. apply Forall_app. split; [assumption |].
      by repeat constructor.
    + intros H. status_de H.
    + intros _. exists h, e. repeat split; try assumption.
  - split; [| split].
    + destruct (conectar_pinecone_historico w s) as (novos & Hn & Hf).
      rewrite Hc in Hn. cbn in Hn. exists novos.
      split; [assumption | by apply de_conexao_contar].
    + rewrite Heq. intros H. status_de H.
    + rewrite Heq. intros H. status_de H.
  - split; [| split].
    + destruct (conectar_pinecone_historico w s) as (novos & Hn & Hf).
      rewrite Hc in Hn. cbn in Hn. exists novos.
      split; [assumption | by apply de_conexao_contar].
    + intros _. auto.
    + rewrite Heq. intros H. status_de H.
Qed.

Lemma read_root_respostas_witness :
  exists h e,
    index estado_conectado = Some h /\
    describe_index_stats mundo_sonda_falha (historico estado_conectado) h
      = Raise e /\
    (read_root mundo_sonda_falha estado_conectado).1 !! "error"
      = Some (VStr e) /\
    (read_root mundo_sonda_falha estado_conectado).2
      = (conectar_pinecone mundo_sonda_falha
           (registrar (EvStats h (Raise e)) estado_conectado)).2.
Proof.
  apply (read_root_respostas mundo_sonda_falha estado_conectado).
  vm_compute. reflexivity.
Defined.

(** ** Paging with arbitrary bounds *)

(** A Python slice is a run of consecutive elements of the list. *)
Lemma py_slice_trecho {A : Type} (l : list A) (start stop : Z) :
  exists lo n,
    py_slice l start stop = take n (drop lo l) /\
    (lo + n <= Nat.max lo (length l))%nat.
Proof.
  unfold py_slice.
  set (len := Z.of_nat (length l)).
  set (a := slice_index len start). set (b := slice_index len stop).
  assert (Ha : 0 <= a <= len).
  { subst a. unfold slice_index. destruct (start <? 0) eqn:E;
      [apply Z.ltb_lt in E | apply Z.ltb_ge in E]; lia. }
  assert (Hb : 0 <= b <= len).
  { subst b. unfold slice_index. destruct (stop <? 0) eqn:E;
      [apply Z.ltb_lt in E | apply Z.ltb_ge in E]; lia. }
  exists (Z.to_nat a), (Z.to_nat (b - a)). split; [reflexivity |]. lia.
Qed.

(** X11.  The page of a listing for any [skip] and [limit], negative ones
    included (the endpoint does not validate them).  A returned listing
    asked the store for [skip + limit] neighbours of the zero vector; its
    hits are built, in order, from a run of consecutive matches of that
    answer, so there are never more hits than matches; and [total] is the
    vector count of the statistics call, whatever the page. *)
Theorem listar_contratos_pagina (w : Mundo) (fuel : nat) (skip limit : Z)
        (s s' : Estado) (r : SearchResponse) :
  listar_contratos w fuel skip limit s = Some (Retorno r, s') ->
  exists h stats ms resto lo n,
    historico s' =
      EvQuery h dummy_vector (skip + limit) (Ok ms)
        :: EvStats h (Ok stats) :: resto /\
    resultados r = map contrato_de (take n (drop lo ms)) /\
    (length (resultados r) <= length ms)%nat /\
    total r = default 0 (stats !! "total_vector_count").
Proof.
  intros H.
  apply listar_contratos_retorno in H as (s1 & Hc).
  apply corpo_listar_contratos_ok in Hc
    as (h & stats & ms & _ & Hh & _ & Ht & Hr).
  assert (Hj : exists lo n,
             match ms with
             | [] => []
             | _ :: _ => py_slice ms skip (skip + limit)
             end = take n (drop lo ms)).
  { destruct ms as [| m ms'].
    - exists 0%nat, 0%nat. reflexivity.
    - destruct (py_slice_trecho (m :: ms') skip (skip + limit))
        as (lo & n & Hp & _). eauto. }
  destruct Hj as (lo & n & Hj). rewrite Hj in Hr.
  exists h, stats, ms, (historico s1), lo, n.
  repeat split; try assumption.
  rewrite Hr, length_map, length_take, length_drop. lia.
Qed.

Lemma listar_contratos_pagina_witness :
  exists r s',
    listar_contratos mundo_estavel 1 (-1) 3 estado_inicial
      = Some (Retorno r, s') /\
    resultados r = [contrato_de match_b] /\
    total r = 4.
Proof.
  destruct (listar_contratos mundo_estavel 1 (-1) 3 estado_inicial)
    as [[[r | c d] s'] |] eqn:E;
    try (vm_compute in E; discriminate E).
  exists r, s'. split; [reflexivity |].
  destruct (listar_contratos_pagina _ _ _ _ _ _ _ E)
    as (h & st & ms & resto & lo & n & _ & _ & _ & _).
  vm_compute in E. injection E as <- _. split; reflexivity.
Defined.
